(** * CalendarIT: the bulk integration module

    A shallow embedding of
    [yet_another_calendar/web/api/bulk/integration.py]: the calendar export
    ([create_ics_event], [export_to_ics]), the aggregator ([get_calendar]),
    the cached read ([get_cached_calendar]) and the refresh reconciler
    ([refresh_events]), with the properties the specification states about
    them. *)

From Stdlib Require Import ZArith Lia.
From stdpp Require Import gmap strings list pretty.

Open Scope string_scope.
Open Scope list_scope.
Open Scope Z_scope.

(** ** Python values, exceptions and generators *)

Module Py.

(** A [datetime.tzinfo], identified by the name of its zone. *)
Record tzinfo := { zone : string }.

(** A [datetime.datetime]: the instant it denotes, in seconds since the
    epoch, and the zone it is expressed in ([None] for a naive value, which
    [astimezone] reads in the local zone of the process). *)
Record datetime := { instant : Z; tz : option tzinfo }.

(** [d.astimezone(t)]: the same instant, expressed in zone [t]. Python
    raises [OverflowError] when the converted time leaves the years 1 to
    9999; the model takes the times of the events within the range where the
    conversion is defined, and does not have that error. *)
Definition astimezone (d : datetime) (t : tzinfo) : datetime :=
  {| instant := instant d; tz := Some t |}.

(** [datetime.datetime.now(tz=t)] when the clock reads [clock]. *)
Definition datetime_now (clock : Z) (t : tzinfo) : datetime :=
  {| instant := clock; tz := Some t |}.

(** The zone of [pytz.utc]. *)
Definition utc : tzinfo := {| zone := "UTC" |}.

(** [tzp.localize_utc(d)] of [icalendar], for an aware value: the same
    instant, expressed in UTC. *)
Definition localize_utc (d : datetime) : datetime :=
  {| instant := instant d; tz := Some utc |}.

(** [s.lower()], on the letters A to Z. *)
Definition lower_ascii (c : Ascii.ascii) : Ascii.ascii :=
  let n := Ascii.N_of_ascii c in
  if ((65 <=? n) && (n <=? 90))%N then Ascii.ascii_of_N (n + 32) else c.

Fixpoint lower (s : string) : string :=
  match s with
  | EmptyString => EmptyString
  | String c s' => String (lower_ascii c) (lower s')
  end.

(** The values handed to [icalendar]: [lesson_id] is typed [Any], the
    optional arguments may be [None]. *)
Inductive value :=
| VNone
| VStr (s : string)
| VInt (z : Z)
| VDatetime (d : datetime).

Definition of_optional (o : option string) : value :=
  match o with
  | Some s => VStr s
  | None => VNone
  end.

(** Truth value of an [Optional[datetime]]: a datetime is always true, so
    only [None] is false. *)
Definition truthy_datetime (o : option datetime) : bool :=
  match o with
  | Some _ => true
  | None => false
  end.

(** Truth value of an [Optional[str]]: [None] and the empty string are
    false. *)
Definition truthy_str (o : option string) : bool :=
  match o with
  | Some s => negb (String.eqb s "")
  | None => false
  end.

Inductive exn :=
| HTTPException (status_code : Z) (detail : string)
| ExceptionGroup (message : string) (exceptions : list string)
| CancelledError
| Exception (message : string).

Inductive result (A : Type) :=
| Ok (a : A)
| Err (e : exn).
Arguments Ok {A} a.
Arguments Err {A} e.

(** What [next] on a generator gives. *)
Inductive gen_step (A : Type) :=
| Yield (a : A)
| StopIteration
| Raise (e : exn).
Arguments Yield {A} a.
Arguments StopIteration {A}.
Arguments Raise {A} e.

Definition HTTP_400_BAD_REQUEST : Z := 400.
Definition HTTP_500_INTERNAL_SERVER_ERROR : Z := 500.

End Py.
Import Py.

(** ** The event schemas *)

(** Modelled from the spec: the [netology] schema module is not part of the
    sources; a NetologyEvent has an identifier, a title, an optional start
    time, an optional end time and an optional webinar URL, and the Netology
    part of a snapshot exposes them as [webinars]. *)
Module netology_schema.
Record LessonWebinar := {
  id : value;
  title : string;
  starts_at : option datetime;
  ends_at : option datetime;
  webinar_url : option string
}.
Record CalendarResponse := { webinars : list LessonWebinar }.
End netology_schema.

(** Modelled from the spec: the [modeus] schema module is not part of the
    sources; a ModeusEvent has an identifier, a name, a start time, an end
    time (both always present) and an optional description. *)
Module modeus_schema.
Record FullEvent := {
  id : value;
  name : string;
  start_time : datetime;
  end_time : datetime;
  description : option string
}.
End modeus_schema.

(** Modelled from the spec: the [bulk] schema module is not part of the
    sources; a snapshot is the Netology events plus the Modeus events of one
    request, and a refreshed snapshot adds the [changed] flag. *)
Module schema.
Record CalendarResponse := {
  netology : netology_schema.CalendarResponse;
  modeus : list modeus_schema.FullEvent
}.
Record RefreshedCalendarResponse := {
  snapshot : CalendarResponse;
  changed : bool
}.
End schema.

(** ** The part of [icalendar] the module uses *)

Module icalendar.

(** A component keeps its properties in the order they were added. *)
Record Event := { properties : list (string * value) }.

Definition Event_new : Event := {| properties := [] |}.

(** The names whose datetime [Component.add] converts to UTC. *)
Definition utc_properties : list string :=
  ["dtstamp"; "created"; "last-modified"].

(** The value [Component.add] stores for [v] under [name]: an aware datetime
    handed under one of [utc_properties] is converted to UTC (the module
    stamps with [datetime.now(tz=timezone)], which is aware; a naive value is
    kept as handed); any other value is kept as handed, [None] included. *)
Definition stored (name : string) (v : value) : value :=
  match v with
  | VDatetime d =>
      if existsb (String.eqb (lower name)) utc_properties
      then match tz d with
           | Some _ => VDatetime (localize_utc d)
           | None => v
           end
      else v
  | _ => v
  end.

(** [event.add(name, v)]: the call records the property whatever [v] is. *)
Definition add (name : string) (v : value) (e : Event) : Event :=
  {| properties := properties e ++ [(name, stored name v)] |}.

Fixpoint assoc (name : string) (l : list (string * value)) : option value :=
  match l with
  | [] => None
  | (k, v) :: l' => if String.eqb k name then Some v else assoc name l'
  end.

(** [event.get(name)] *)
Definition get (name : string) (e : Event) : option value :=
  assoc name (properties e).

(** [name in event] *)
Definition has (name : string) (e : Event) : bool :=
  match get name e with
  | Some _ => true
  | None => false
  end.

Record Calendar := {
  cal_properties : list (string * value);
  subcomponents : list Event
}.

Definition Calendar_new : Calendar :=
  {| cal_properties := []; subcomponents := [] |}.

Definition cal_add (name : string) (v : value) (c : Calendar) : Calendar :=
  {| cal_properties := cal_properties c ++ [(name, v)];
     subcomponents := subcomponents c |}.

Definition add_component (e : Event) (c : Calendar) : Calendar :=
  {| cal_properties := cal_properties c;
     subcomponents := subcomponents c ++ [e] |}.

End icalendar.
Import icalendar.

Definition bytes := list Byte.byte.

(** ** Calendar export *)

Module IcsExport.

(** [create_ics_event], with the reading of the clock that
    [datetime.datetime.now] returns passed as [clock]. *)
Definition create_ics_event (clock : Z) (title : string)
    (starts_at ends_at : datetime) (lesson_id : value) (timezone : tzinfo)
    (description webinar_url : option string) : Event :=
  let event := Event_new in
  let dt_now := datetime_now clock timezone in
  let event := add "summary" (VStr title) event in
  let event := add "location" (of_optional webinar_url) event in
  let event := add "dtstart" (VDatetime (astimezone starts_at timezone)) event in
  let event := add "dtend" (VDatetime (astimezone ends_at timezone)) event in
  let event := add "dtstamp" (VDatetime dt_now) event in
  let event := add "uid" lesson_id event in
  let event :=
    if truthy_str description
    then add "description" (of_optional description) event
    else event in
  event.

Section WithCollaborators.

(** [pytz.timezone]: [None] stands for [UnknownTimeZoneError]. *)
Variable pytz_timezone : string -> option tzinfo.
(** The reading of the clock at the k-th call of [datetime.now] during an
    export. *)
Variable now : nat -> Z.
(** [Calendar.to_ical], the serialisation of the finished document. *)
Variable to_ical : Calendar -> bytes.

(** The state of the two loops: the document so far and the number of
    events created so far. *)
Definition loop_state : Type := Calendar * nat.

(** The body of [for netology_lesson in calendar.netology.webinars]. *)
Definition netology_step (tz : tzinfo) (st : loop_state)
    (netology_lesson : netology_schema.LessonWebinar) : loop_state :=
  let '(ics_calendar, k) := st in
  if negb (truthy_datetime (netology_schema.starts_at netology_lesson))
     || negb (truthy_datetime (netology_schema.ends_at netology_lesson))
  then st (* continue *)
  else
    match netology_schema.starts_at netology_lesson,
          netology_schema.ends_at netology_lesson with
    | Some starts_at, Some ends_at =>
        let event :=
          create_ics_event (now k)
            ("Netology: " +:+ netology_schema.title netology_lesson)
            starts_at ends_at (netology_schema.id netology_lesson) tz
            None (netology_schema.webinar_url netology_lesson) in
        (add_component event ics_calendar, S k)
    | _, _ => st
    end.

(** The body of [for modeus_lesson in calendar.modeus]. *)
Definition modeus_step (tz : tzinfo) (st : loop_state)
    (modeus_lesson : modeus_schema.FullEvent) : loop_state :=
  let '(ics_calendar, k) := st in
  let event :=
    create_ics_event (now k)
      ("Modeus: " +:+ modeus_schema.name modeus_lesson)
      (modeus_schema.start_time modeus_lesson)
      (modeus_schema.end_time modeus_lesson)
      (modeus_schema.id modeus_lesson) tz
      (modeus_schema.description modeus_lesson) None in
  (add_component event ics_calendar, S k).

(** The body of [export_to_ics] up to its [yield]: the document that is
    serialised, or the exception raised. *)
Definition export_document (calendar : schema.CalendarResponse)
    (timezone : string) : result Calendar :=
  match pytz_timezone timezone with
  | None => Err (HTTPException HTTP_400_BAD_REQUEST "Wrong timezone")
  | Some tz =>
      let ics_calendar := Calendar_new in
      let ics_calendar := cal_add "version" (VStr "2.0") ics_calendar in
      let ics_calendar :=
        cal_add "prodid" (VStr "yet_another_calendar") ics_calendar in
      let st := (ics_calendar, 0%nat) in
      let st :=
        fold_left (netology_step tz)
          (netology_schema.webinars (schema.netology calendar)) st in
      let st := fold_left (modeus_step tz) (schema.modeus calendar) st in
      Ok (fst st)
  end.

(** *** What the loops are expected to add

    The entries of the document, read off the events of the snapshot; the
    loops above are compared with these. *)

(** An event that has both its start and its end. *)
Definition exportable (lesson : netology_schema.LessonWebinar) : bool :=
  match netology_schema.starts_at lesson, netology_schema.ends_at lesson with
  | Some _, Some _ => true
  | _, _ => false
  end.

(** The entries of the Netology events [lessons], the first of them being
    the k-th event created. *)
Fixpoint netology_entries (tz : tzinfo) (k : nat)
    (lessons : list netology_schema.LessonWebinar) : list Event :=
  match lessons with
  | [] => []
  | lesson :: lessons' =>
      match netology_schema.starts_at lesson,
            netology_schema.ends_at lesson with
      | Some starts_at, Some ends_at =>
          create_ics_event (now k)
            ("Netology: " +:+ netology_schema.title lesson)
            starts_at ends_at (netology_schema.id lesson) tz
            None (netology_schema.webinar_url lesson)
          :: netology_entries tz (S k) lessons'
      | _, _ => netology_entries tz k lessons'
      end
  end.

(** The entries of the Modeus events [lessons], the first of them being the
    k-th event created. *)
Fixpoint modeus_entries (tz : tzinfo) (k : nat)
    (lessons : list modeus_schema.FullEvent) : list Event :=
  match lessons with
  | [] => []
  | lesson :: lessons' =>
      create_ics_event (now k)
        ("Modeus: " +:+ modeus_schema.name lesson)
        (modeus_schema.start_time lesson) (modeus_schema.end_time lesson)
        (modeus_schema.id lesson) tz (modeus_schema.description lesson) None
      :: modeus_entries tz (S k) lessons'
  end.

(** An entry that stands for the Netology event [lesson]. *)
Definition from_netology (tz : tzinfo)
    (lesson : netology_schema.LessonWebinar) (entry : Event) : Prop :=
  exists (k : nat) (starts_at ends_at : datetime),
    netology_schema.starts_at lesson = Some starts_at /\
    netology_schema.ends_at lesson = Some ends_at /\
    entry =
      create_ics_event (now k)
        ("Netology: " +:+ netology_schema.title lesson)
        starts_at ends_at (netology_schema.id lesson) tz
        None (netology_schema.webinar_url lesson).

(** An entry that stands for the Modeus event [lesson]. *)
Definition from_modeus (tz : tzinfo)
    (lesson : modeus_schema.FullEvent) (entry : Event) : Prop :=
  exists k : nat,
    entry =
      create_ics_event (now k)
        ("Modeus: " +:+ modeus_schema.name lesson)
        (modeus_schema.start_time lesson) (modeus_schema.end_time lesson)
        (modeus_schema.id lesson) tz (modeus_schema.description lesson) None.

(** [export_to_ics] is a generator function: calling it runs nothing, the
    body runs at the first [next], yields one item, and the second [next]
    ends the iteration. *)
Inductive generator :=
| GenCreated (calendar : schema.CalendarResponse) (timezone : string)
| GenSuspended
| GenClosed.

Definition export_to_ics (calendar : schema.CalendarResponse)
    (timezone : string) : generator :=
  GenCreated calendar timezone.

Definition next (g : generator) : gen_step bytes * generator :=
  match g with
  | GenCreated calendar timezone =>
      match export_document calendar timezone with
      | Ok ics_calendar => (Yield (to_ical ics_calendar), GenSuspended)
      | Err e => (Raise e, GenClosed)
      end
  | GenSuspended => (StopIteration, GenClosed)
  | GenClosed => (StopIteration, GenClosed)
  end.

(** Running the generator to its end: the items it yields, and the
    exception that ended it, if any. *)
Fixpoint drain (fuel : nat) (g : generator) : list bytes * option exn :=
  match fuel with
  | O => ([], None)
  | S fuel' =>
      match next g with
      | (Yield b, g') => let '(bs, e) := drain fuel' g' in (b :: bs, e)
      | (StopIteration, _) => ([], None)
      | (Raise e, _) => ([], Some e)
      end
  end.

End WithCollaborators.

End IcsExport.


(** ** Settings and the cache library *)

(** Modelled from the spec: the [settings] module is not part of the
    sources; the module reads the key namespace and the time-to-live of
    cached snapshots from it. *)
Record Settings := {
  redis_prefix : string;
  redis_events_time_live : Z
}.

(** The coder of [fastapi_cache]: [None] stands for an exception raised while
    encoding or decoding. *)
Record Coder := {
  encode : schema.CalendarResponse -> option bytes;
  decode_as_type : bytes -> option schema.CalendarResponse
}.

(** What [FastAPICache.init] configured. *)
Record FastAPICache := {
  get_prefix : string;
  get_expire : option Z;
  get_coder : Coder
}.

(** ** The world the asynchronous code runs in *)

Module World.

(** The cache backend's entries (value and time-to-live), the number of
    collaborator calls made so far, and the records logged by the module. *)
Record t := {
  store : gmap string (bytes * option Z);
  ticks : nat;
  log : list string
}.

(** Computations that read and change the world and may raise. *)
Definition M (A : Type) : Type := t -> result A * t.

Definition ret {A} (a : A) : M A := fun w => (Ok a, w).

Definition raise {A} (e : exn) : M A := fun w => (Err e, w).

Definition bind {A B} (m : M A) (k : A -> M B) : M B :=
  fun w =>
    match m w with
    | (Ok a, w') => k a w'
    | (Err e, w') => (Err e, w')
    end.

(** [except Exception] does not catch [CancelledError], which derives from
    [BaseException]. *)
Definition is_Exception (e : exn) : bool :=
  match e with
  | CancelledError => false
  | _ => true
  end.

(** [try: m except Exception as e: handler e] *)
Definition try_except {A} (m : M A) (handler : exn -> M A) : M A :=
  fun w =>
    match m w with
    | (Ok a, w') => (Ok a, w')
    | (Err e, w') => if is_Exception e then handler e w' else (Err e, w')
    end.

Definition lift_option {A} (message : string) (o : option A) : M A :=
  match o with
  | Some a => ret a
  | None => raise (Exception message)
  end.

(** One more collaborator call: its index among all calls. *)
Definition tick : M nat :=
  fun w =>
    (Ok (ticks w),
     {| store := store w; ticks := S (ticks w); log := log w |}).

Definition logger_error (message : string) : M unit :=
  fun w =>
    (Ok tt,
     {| store := store w; ticks := ticks w; log := log w ++ [message] |}).

(** [str(e)] *)
Definition str_exn (e : exn) : string :=
  match e with
  | HTTPException status_code detail =>
      pretty status_code +:+ ": " +:+ detail
  | ExceptionGroup message exceptions =>
      message +:+ " (" +:+ pretty (length exceptions) +:+ " sub-exception"
      +:+ (if (length exceptions =? 1)%nat then "" else "s") +:+ ")"
  | CancelledError => ""
  | Exception message => message
  end.

End World.
Import World.

(** The monad structure, for the notations [x ← m; k] and [m;; k]. *)
#[global] Instance M_ret : MRet M := @ret.
#[global] Instance M_bind : MBind M := fun A B k m => bind m k.

(** ** Tasks and task groups of [asyncio] *)

Module asyncio.

(** How a task ended. *)
Inductive Task (A : Type) :=
| Returned (a : A)
| Raised (message : string)
| Cancelled.
Arguments Returned {A} a.
Arguments Raised {A} message.
Arguments Cancelled {A}.

(** The exception a task ended with, if it raised one. *)
Definition exception {A} (task : Task A) : list string :=
  match task with
  | Raised message => [message]
  | _ => []
  end.

(** [task.result()] *)
Definition task_result {A} (task : Task A) : M A :=
  match task with
  | Returned a => ret a
  | Raised message => raise (Exception message)
  | Cancelled => raise CancelledError
  end.

(** Leaving [async with asyncio.TaskGroup()]: every task has ended; when
    some raised, the group raises them together. *)
Definition TaskGroup_aexit (errors : list string) : M unit :=
  match errors with
  | [] => ret tt
  | _ :: _ => raise (ExceptionGroup "unhandled errors in a TaskGroup" errors)
  end.

End asyncio.
Import asyncio.

(** ** The aggregator, the cached read and the refresh reconciler *)

Module Bulk.

Definition module_name : string :=
  "yet_another_calendar.web.api.bulk.integration".

Section WithCollaborators.

(** The request values whose types the [modeus] and [netology] schema modules
    declare. *)
Variables ModeusEventsBody NetologyCookies : Type.

Variable settings : Settings.
Variable cache_config : FastAPICache.

(** [hashlib.md5(s.encode()).hexdigest()] *)
Variable md5_hexdigest : string -> string.
(** [str] of the tuple of the four positional arguments. *)
Variable str_args :
  ModeusEventsBody -> string -> Z -> NetologyCookies -> string.
(** [CalendarResponse.get_hash] *)
Variable get_hash : schema.CalendarResponse -> string.

(** How the task of each upstream view ends, when it is started as the n-th
    collaborator call. *)
Variable netology_views_get_calendar :
  nat -> ModeusEventsBody -> Z -> NetologyCookies ->
  Task netology_schema.CalendarResponse.
Variable modeus_views_get_calendar :
  nat -> ModeusEventsBody -> string -> Task (list modeus_schema.FullEvent).
(** Whether the cache backend raises when it is reached as the n-th
    collaborator call, and with which message. *)
Variable backend_fault : nat -> option string.

(** [backend.get_with_ttl(key)]: the time-to-live and the value, [None] when
    the key is absent. *)
Definition backend_get_with_ttl (key : string) : M (option Z * option bytes) :=
  n ← tick;
  match backend_fault n with
  | Some message => raise (Exception message)
  | None =>
      fun w =>
        match store w !! key with
        | Some (value, expire) => (Ok (expire, Some value), w)
        | None => (Ok (Some 0, None), w)
        end
  end.

(** [backend.set(key, value, expire)]: overwrites the entry of [key]. *)
Definition backend_set (key : string) (value : bytes) (expire : option Z)
    : M unit :=
  n ← tick;
  match backend_fault n with
  | Some message => raise (Exception message)
  | None =>
      fun w =>
        (Ok tt,
         {| store := <[key := (value, expire)]> (store w);
            ticks := ticks w; log := log w |})
  end.

(** [fastapi_cache.default_key_builder(func, namespace, args=.., kwargs={})] *)
Definition default_key_builder (func_module func_name : string)
    (namespace : string) (args : string) (kwargs : string) : string :=
  let cache_key :=
    md5_hexdigest
      (func_module +:+ ":" +:+ func_name +:+ ":" +:+ args +:+ ":" +:+ kwargs) in
  namespace +:+ ":" +:+ cache_key.

(** [expire or FastAPICache.get_expire()] *)
Definition expire_or (expire : Z) (default : option Z) : option Z :=
  if expire =? 0 then default else Some expire.

(** [get_calendar]: both upstream tasks run in one task group; the snapshot
    is built from the results of both once the group is left. When both
    tasks raised, the group is given the error of the Netology task first;
    [asyncio] lists them in the order in which the tasks ended. *)
Definition get_calendar (body : ModeusEventsBody) (jwt_token : string)
    (calendar_id : Z) (cookies : NetologyCookies)
    : M schema.CalendarResponse :=
  n ← tick;
  let netology_response :=
    netology_views_get_calendar n body calendar_id cookies in
  let modeus_response := modeus_views_get_calendar n body jwt_token in
  TaskGroup_aexit (exception netology_response ++ exception modeus_response);;
  netology ← task_result netology_response;
  modeus ← task_result modeus_response;
  ret {| schema.netology := netology; schema.modeus := modeus |}.

(** The key under which the decorator of [get_cached_calendar] reads and
    writes: the key builder is called with the namespace
    [f"{prefix}:{namespace}"], the decorator's own namespace being empty. *)
Definition cached_key (body : ModeusEventsBody) (jwt_token : string)
    (calendar_id : Z) (cookies : NetologyCookies) : string :=
  default_key_builder module_name "get_cached_calendar"
    (get_prefix cache_config +:+ ":" +:+ "")
    (str_args body jwt_token calendar_id cookies) "{}".

(** [get_cached_calendar]: [get_calendar] under
    [@cache(expire=settings.redis_events_time_live)]. The decorator looks the
    key up (a backend failure counts as a miss); on a miss it calls the
    function, stores the encoded result (a backend failure is only logged by
    the library) and returns the result; on a hit it returns the decoded
    entry. *)
Definition get_cached_calendar (body : ModeusEventsBody) (jwt_token : string)
    (calendar_id : Z) (cookies : NetologyCookies)
    : M schema.CalendarResponse :=
  let coder := get_coder cache_config in
  let expire :=
    expire_or (redis_events_time_live settings) (get_expire cache_config) in
  let cache_key := cached_key body jwt_token calendar_id cookies in
  '(ttl, cached) ←
    try_except (backend_get_with_ttl cache_key)
      (fun _ => ret (Some 0, None));
  match cached with
  | None =>
      result ← get_calendar body jwt_token calendar_id cookies;
      to_cache ← lift_option "encode" (encode coder result);
      try_except (backend_set cache_key to_cache expire)
        (fun _ => ret tt);;
      ret result
  | Some cached =>
      lift_option "decode" (decode_as_type coder cached)
  end.

(** The key [refresh_events] writes under. *)
Definition refresh_key (body : ModeusEventsBody) (jwt_token : string)
    (calendar_id : Z) (cookies : NetologyCookies) : string :=
  let cache_key :=
    default_key_builder module_name "get_cached_calendar" ""
      (str_args body jwt_token calendar_id cookies) "{}" in
  redis_prefix settings +:+ ":" +:+ cache_key.

(** The body of the [try] block of [refresh_events]. *)
Definition refresh_write (body : ModeusEventsBody) (jwt_token : string)
    (calendar_id : Z) (cookies : NetologyCookies)
    (calendar : schema.CalendarResponse) : M unit :=
  let key := refresh_key body jwt_token calendar_id cookies in
  let coder := get_coder cache_config in
  value ← lift_option "encode" (encode coder calendar);
  backend_set key value (Some (redis_events_time_live settings)).

(** [refresh_events]. [model_validate] of a value that already is a
    [CalendarResponse] returns it, and the result is the dump of [calendar]
    with [changed] added. *)
Definition refresh_events (body : ModeusEventsBody) (jwt_token : string)
    (calendar_id : Z) (cookies : NetologyCookies)
    : M schema.RefreshedCalendarResponse :=
  cached_json ← get_cached_calendar body jwt_token calendar_id cookies;
  let cached_calendar := cached_json in
  calendar ← get_calendar body jwt_token calendar_id cookies;
  let changed :=
    negb (String.eqb (get_hash cached_calendar) (get_hash calendar)) in
  try_except (refresh_write body jwt_token calendar_id cookies calendar)
    (fun exception =>
       logger_error ("Got redis " +:+ str_exn exception);;
       raise (HTTPException HTTP_500_INTERNAL_SERVER_ERROR
                "Can't refresh redis"));;
  ret {| schema.snapshot := calendar; schema.changed := changed |}.

End WithCollaborators.

End Bulk.

(** ** Sample collaborators and inputs *)

Module Sample.

Definition utc : tzinfo := {| zone := "UTC" |}.

(** A small timezone database. *)
Definition pytz_timezone (name : string) : option tzinfo :=
  if String.eqb name "UTC" then Some utc
  else if String.eqb name "Europe/Moscow" then Some {| zone := name |}
  else if String.eqb name "Asia/Yekaterinburg" then Some {| zone := name |}
  else None.

(** A clock that starts on 2024-01-02 and advances a second per reading. *)
Definition now (k : nat) : Z := 1704153600 + Z.of_nat k.

(** A serialisation that keeps one line per entry, its summary. *)
Definition to_ical (doc : Calendar) : bytes :=
  flat_map
    (fun entry =>
       match get "summary" entry with
       | Some (VStr s) => (String.list_byte_of_string s ++ [Byte.x0a])%list
       | _ => [Byte.x0a]
       end)
    (subcomponents doc).

Definition at_utc (seconds : Z) : datetime :=
  {| instant := seconds; tz := Some utc |}.

(** {id:1, title:"Math", starts_at: 2024-01-01T10:00Z,
     ends_at: 2024-01-01T11:00Z} *)
Definition math : netology_schema.LessonWebinar :=
  {| netology_schema.id := VInt 1;
     netology_schema.title := "Math";
     netology_schema.starts_at := Some (at_utc 1704103200);
     netology_schema.ends_at := Some (at_utc 1704106800);
     netology_schema.webinar_url := None |}.

(** {id:2, name:"Physics", start: 2024-01-01T12:00Z,
     end: 2024-01-01T13:00Z} *)
Definition physics : modeus_schema.FullEvent :=
  {| modeus_schema.id := VInt 2;
     modeus_schema.name := "Physics";
     modeus_schema.start_time := at_utc 1704110400;
     modeus_schema.end_time := at_utc 1704114000;
     modeus_schema.description := None |}.

(** A webinar that has not been scheduled yet. *)
Definition unscheduled : netology_schema.LessonWebinar :=
  {| netology_schema.id := VInt 3;
     netology_schema.title := "Algebra";
     netology_schema.starts_at := None;
     netology_schema.ends_at := Some (at_utc 1704196800);
     netology_schema.webinar_url := Some "https://netology.example/3" |}.

Definition scenario : schema.CalendarResponse :=
  {| schema.netology := {| netology_schema.webinars := [math] |};
     schema.modeus := [physics] |}.

(** A second Modeus event, for an upstream that changed. *)
Definition chemistry : modeus_schema.FullEvent :=
  {| modeus_schema.id := VInt 4;
     modeus_schema.name := "Chemistry";
     modeus_schema.start_time := at_utc 1704200400;
     modeus_schema.end_time := at_utc 1704204000;
     modeus_schema.description := Some "Lab 2" |}.

Definition scenario_later : schema.CalendarResponse :=
  {| schema.netology := {| netology_schema.webinars := [math] |};
     schema.modeus := [physics; chemistry] |}.

Definition settings : Settings :=
  {| redis_prefix := "yet_another_calendar";
     redis_events_time_live := 3600 |}.

(** A coder for the two sample snapshots: it writes the number of Modeus
    events and reads the snapshot back from it. *)
Definition coder : Coder :=
  {| encode calendar :=
       match schema.modeus calendar with
       | [_] => Some [Byte.x01]
       | [_; _] => Some [Byte.x02]
       | _ => None
       end;
     decode_as_type cached :=
       match cached with
       | [Byte.x01] => Some scenario
       | [Byte.x02] => Some scenario_later
       | _ => None
       end |}.

(** The cache library initialised with the namespace of the settings. *)
Definition cache_config : FastAPICache :=
  {| get_prefix := "yet_another_calendar";
     get_expire := None;
     get_coder := coder |}.

(** The cache library initialised with another namespace. *)
Definition cache_config_other : FastAPICache :=
  {| get_prefix := "fastapi-cache";
     get_expire := None;
     get_coder := coder |}.

(** A stand-in for the digest that keeps its input. *)
Definition md5_hexdigest (s : string) : string := s.

Definition str_args (body jwt_token : string) (calendar_id : Z)
    (cookies : string) : string :=
  "(" +:+ body +:+ ", " +:+ jwt_token +:+ ", " +:+ pretty calendar_id
  +:+ ", " +:+ cookies +:+ ")".

(** A content hash that lists the titles and the names. *)
Definition get_hash (calendar : schema.CalendarResponse) : string :=
  String.concat "|"
    (map netology_schema.title
       (netology_schema.webinars (schema.netology calendar))
     ++ map modeus_schema.name (schema.modeus calendar)).

(** Netology answers with the one webinar. *)
Definition netology_up (n : nat) (body : string) (calendar_id : Z)
    (cookies : string) : Task netology_schema.CalendarResponse :=
  Returned {| netology_schema.webinars := [math] |}.

(** Netology is unreachable. *)
Definition netology_down (n : nat) (body : string) (calendar_id : Z)
    (cookies : string) : Task netology_schema.CalendarResponse :=
  Raised "netology: 502 Bad Gateway".

(** Modeus always answers with the one lesson. *)
Definition modeus_up (n : nat) (body jwt_token : string)
    : Task (list modeus_schema.FullEvent) :=
  Returned [physics].

(** Modeus gains a lesson from the fourth collaborator call on. *)
Definition modeus_changing (n : nat) (body jwt_token : string)
    : Task (list modeus_schema.FullEvent) :=
  if (n <? 3)%nat then Returned [physics] else Returned [physics; chemistry].

(** A backend that never fails, and one that fails at the k-th call. *)
Definition no_fault (n : nat) : option string := None.

Definition fault_at (k n : nat) : option string :=
  if (n =? k)%nat then Some "Connection refused" else None.

(** An empty cache, before any call. *)
Definition empty_world : World.t :=
  {| store := ∅; ticks := 0; log := [] |}.

(** The cache after a first fetch stored the sample snapshot under the key of
    the sample request. *)
Definition warm_world : World.t :=
  {| store :=
       {[ Bulk.cached_key string string cache_config md5_hexdigest str_args
            "body" "jwt" 45526 "cookies" := ([Byte.x01], Some 3600) ]};
     ticks := 3; log := [] |}.

(** A snapshot with a webinar that has no start among the others. *)
Definition mixed : schema.CalendarResponse :=
  {| schema.netology :=
       {| netology_schema.webinars := [unscheduled; math] |};
     schema.modeus := [physics; chemistry] |}.

(** The module on the sample collaborators, for the sample request. *)
Definition export_document :=
  IcsExport.export_document pytz_timezone now.

Definition next := IcsExport.next pytz_timezone now to_ical.

Definition cached_key : string :=
  Bulk.cached_key string string cache_config md5_hexdigest str_args
    "body" "jwt" 45526 "cookies".

Definition get_calendar netology_views modeus_views :=
  Bulk.get_calendar string string netology_views modeus_views
    "body" "jwt" 45526 "cookies".

Definition get_cached_calendar modeus_views backend_fault :=
  Bulk.get_cached_calendar string string settings cache_config md5_hexdigest
    str_args netology_up modeus_views backend_fault
    "body" "jwt" 45526 "cookies".

Definition refresh_events modeus_views backend_fault :=
  Bulk.refresh_events string string settings cache_config md5_hexdigest
    str_args get_hash netology_up modeus_views backend_fault
    "body" "jwt" 45526 "cookies".

(** A webinar with both times and a link. *)
Definition lecture : netology_schema.LessonWebinar :=
  {| netology_schema.id := VInt 5;
     netology_schema.title := "Logic";
     netology_schema.starts_at := Some (at_utc 1704279600);
     netology_schema.ends_at := Some (at_utc 1704283200);
     netology_schema.webinar_url := Some "https://netology.example/5" |}.

(** A lesson whose description is the empty string. *)
Definition seminar : modeus_schema.FullEvent :=
  {| modeus_schema.id := VStr "6f1c";
     modeus_schema.name := "Seminar";
     modeus_schema.start_time := at_utc 1704286800;
     modeus_schema.end_time := at_utc 1704290400;
     modeus_schema.description := Some "" |}.

(** A snapshot whose lessons have no description, a description, and an
    empty one. *)
Definition described : schema.CalendarResponse :=
  {| schema.netology := {| netology_schema.webinars := [lecture] |};
     schema.modeus := [physics; chemistry; seminar] |}.

(** Modeus answers until the k-th collaborator call and refuses the
    credentials from then on. *)
Definition modeus_down_from (k n : nat) (body jwt_token : string)
    : Task (list modeus_schema.FullEvent) :=
  if (n <? k)%nat then Returned [physics]
  else Raised "modeus: 401 Unauthorized".

(** The cache after a first fetch, when the cache library was initialised
    with another namespace than the one of the settings. *)
Definition warm_world_other : World.t :=
  {| store :=
       {[ Bulk.cached_key string string cache_config_other md5_hexdigest
            str_args "body" "jwt" 45526 "cookies" :=
            ([Byte.x01], Some 3600) ]};
     ticks := 3; log := [] |}.

End Sample.

(** * Properties of the calendar export *)

Section ExportProperties.

Variable pytz_timezone : string -> option tzinfo.
Variable now : nat -> Z.
Variable to_ical : Calendar -> bytes.

Local Abbreviation netology_step := (IcsExport.netology_step now).
Local Abbreviation modeus_step := (IcsExport.modeus_step now).
Local Abbreviation netology_entries := (IcsExport.netology_entries now).
Local Abbreviation modeus_entries := (IcsExport.modeus_entries now).
Local Abbreviation export_document := (IcsExport.export_document pytz_timezone now).
Local Abbreviation next := (IcsExport.next pytz_timezone now to_ical).

(** An event without start or without end leaves the loop state as it is. *)
Lemma netology_step_skip tz st lesson :
  IcsExport.exportable lesson = false ->
  netology_step tz st lesson = st.
Proof.
  unfold IcsExport.netology_step, IcsExport.exportable.
  destruct st as [doc k].
  destruct (netology_schema.starts_at lesson), (netology_schema.ends_at lesson);
    simpl; intros H; congruence.
Qed.

(** An event with both times adds one entry and counts one creation. *)
Lemma netology_step_emit tz doc k lesson starts_at ends_at :
  netology_schema.starts_at lesson = Some starts_at ->
  netology_schema.ends_at lesson = Some ends_at ->
  netology_step tz (doc, k) lesson =
    (add_component
       (IcsExport.create_ics_event (now k)
          ("Netology: " +:+ netology_schema.title lesson)
          starts_at ends_at (netology_schema.id lesson) tz
          None (netology_schema.webinar_url lesson)) doc,
     S k).
Proof.
  intros Hs He.
  unfold IcsExport.netology_step. rewrite Hs, He. reflexivity.
Qed.

Lemma add_component_app doc entries entry :
  subcomponents doc ++ entry :: entries =
  subcomponents (add_component entry doc) ++ entries.
Proof. simpl. rewrite <- app_assoc. reflexivity. Qed.

(** The first loop appends the entries of its events, in their order, and
    leaves the document's own properties alone. *)
Lemma netology_loop tz lessons : forall doc k,
  let st := fold_left (netology_step tz) lessons (doc, k) in
  subcomponents (fst st) = subcomponents doc ++ netology_entries tz k lessons
  /\ cal_properties (fst st) = cal_properties doc
  /\ snd st =
     (k + length (List.filter IcsExport.exportable lessons))%nat.
Proof.
  induction lessons as [|lesson lessons IH]; intros doc k;
    cbn [fold_left List.filter IcsExport.netology_entries length].
  - simpl. rewrite app_nil_r. repeat split. lia.
  - destruct (netology_schema.starts_at lesson) as [s|] eqn:Hs;
      [destruct (netology_schema.ends_at lesson) as [e|] eqn:He|].
    + rewrite (netology_step_emit tz doc k lesson s e Hs He).
      unfold IcsExport.exportable at 1. rewrite Hs, He.
      destruct (IH (add_component
        (IcsExport.create_ics_event (now k)
           ("Netology: " +:+ netology_schema.title lesson) s e
           (netology_schema.id lesson) tz None
           (netology_schema.webinar_url lesson)) doc) (S k))
        as (H1 & H2 & H3).
      rewrite H1, H2, H3. rewrite add_component_app.
      repeat split. simpl. lia.
    + assert (Hx : IcsExport.exportable lesson = false)
        by (unfold IcsExport.exportable; rewrite Hs, He; reflexivity).
      rewrite (netology_step_skip tz (doc, k) lesson Hx), Hx.
      apply IH.
    + assert (Hx : IcsExport.exportable lesson = false)
        by (unfold IcsExport.exportable; rewrite Hs; reflexivity).
      rewrite (netology_step_skip tz (doc, k) lesson Hx), Hx.
      apply IH.
Qed.

(** The second loop appends one entry per event, in their order. *)
Lemma modeus_loop tz lessons : forall doc k,
  let st := fold_left (modeus_step tz) lessons (doc, k) in
  subcomponents (fst st) = subcomponents doc ++ modeus_entries tz k lessons
  /\ cal_properties (fst st) = cal_properties doc
  /\ snd st = (k + length lessons)%nat.
Proof.
  induction lessons as [|lesson lessons IH]; intros doc k;
    cbn [fold_left IcsExport.modeus_entries length].
  - simpl. rewrite app_nil_r. repeat split. lia.
  - unfold IcsExport.modeus_step at 2 4 6.
    match goal with
    | |- context [fold_left _ _ (add_component ?e doc, S k)] =>
        destruct (IH (add_component e doc) (S k)) as (H1 & H2 & H3);
        rewrite H1, H2, H3; rewrite <- (add_component_app doc _ e)
    end.
    repeat split. lia.
Qed.

(** The document of a valid timezone: the fixed properties, then the Netology
    entries, then the Modeus entries. *)
Lemma export_document_valid calendar timezone tz :
  pytz_timezone timezone = Some tz ->
  let lessons := netology_schema.webinars (schema.netology calendar) in
  exists doc,
    export_document calendar timezone = Ok doc /\
    cal_properties doc =
      [("version", VStr "2.0"); ("prodid", VStr "yet_another_calendar")] /\
    subcomponents doc =
      netology_entries tz 0 lessons ++
      modeus_entries tz (length (List.filter IcsExport.exportable lessons))
        (schema.modeus calendar).
Proof.
  intros Htz lessons.
  unfold IcsExport.export_document. rewrite Htz.
  eexists. split; [reflexivity|].
  set (doc0 := cal_add "prodid" _ _).
  destruct (netology_loop tz lessons doc0 0) as (N1 & N2 & N3).
  fold lessons.
  destruct (fold_left (netology_step tz) lessons (doc0, 0%nat)) as [doc1 k1].
  simpl in N1, N2, N3.
  destruct (modeus_loop tz (schema.modeus calendar) doc1 k1) as (M1 & M2 & _).
  rewrite M1, M2, N1, N2, N3. split; reflexivity.
Qed.

Lemma export_document_invalid calendar timezone :
  pytz_timezone timezone = None ->
  export_document calendar timezone =
    Err (HTTPException 400 "Wrong timezone").
Proof.
  intros Htz. unfold IcsExport.export_document.
  rewrite Htz. reflexivity.
Qed.

Lemma netology_entries_length tz lessons : forall k,
  length (netology_entries tz k lessons) =
  length (List.filter IcsExport.exportable lessons).
Proof.
  induction lessons as [|lesson lessons IH]; intros k; [reflexivity|].
  simpl. unfold IcsExport.exportable at 1.
  destruct (netology_schema.starts_at lesson);
    [destruct (netology_schema.ends_at lesson)|]; simpl; rewrite ?IH; auto.
Qed.

Lemma modeus_entries_length tz lessons : forall k,
  length (modeus_entries tz k lessons) = length lessons.
Proof.
  induction lessons as [|lesson lessons IH]; intros k; [reflexivity|].
  simpl. rewrite IH. reflexivity.
Qed.

Lemma netology_entries_from tz lessons : forall k,
  Forall2 (IcsExport.from_netology now tz)
    (List.filter IcsExport.exportable lessons)
    (netology_entries tz k lessons).
Proof.
  induction lessons as [|lesson lessons IH]; intros k; [constructor|].
  simpl. unfold IcsExport.exportable at 1.
  destruct (netology_schema.starts_at lesson) as [s|] eqn:Hs;
    [destruct (netology_schema.ends_at lesson) as [e|] eqn:He|]; auto.
  constructor; [|apply IH].
  exists k, s, e. auto.
Qed.

Lemma modeus_entries_from tz lessons : forall k,
  Forall2 (IcsExport.from_modeus now tz) lessons (modeus_entries tz k lessons).
Proof.
  induction lessons as [|lesson lessons IH]; intros k; [constructor|].
  simpl.
  constructor; [|apply IH]. exists k. reflexivity.
Qed.

End ExportProperties.

Section ExportClaims.

Variable pytz_timezone : string -> option tzinfo.
Variable now : nat -> Z.
Variable to_ical : Calendar -> bytes.

Local Abbreviation netology_entries := (IcsExport.netology_entries now).
Local Abbreviation modeus_entries := (IcsExport.modeus_entries now).
Local Abbreviation export_document :=
  (IcsExport.export_document pytz_timezone now).
Local Abbreviation next := (IcsExport.next pytz_timezone now to_ical).

Lemma netology_entries_app tz before after : forall k,
  netology_entries tz k (before ++ after) =
  netology_entries tz k before ++
  netology_entries tz
    (k + length (List.filter IcsExport.exportable before)) after.
Proof.
  induction before as [|lesson before IH]; intros k; simpl.
  - f_equal. lia.
  - unfold IcsExport.exportable at 1.
    destruct (netology_schema.starts_at lesson);
      [destruct (netology_schema.ends_at lesson)|]; simpl; rewrite IH;
      simpl; rewrite ?Nat.add_succ_r; reflexivity.
Qed.

Lemma filter_exportable_app before after :
  List.filter IcsExport.exportable (before ++ after) =
  List.filter IcsExport.exportable before ++
  List.filter IcsExport.exportable after.
Proof.
  induction before as [|lesson before IH]; simpl; [reflexivity|].
  destruct (IcsExport.exportable lesson); simpl; rewrite IH; reflexivity.
Qed.

Lemma Calendar_eq (doc doc' : Calendar) :
  cal_properties doc = cal_properties doc' ->
  subcomponents doc = subcomponents doc' ->
  doc = doc'.
Proof. destruct doc, doc'; simpl; intros -> ->; reflexivity. Qed.

(** C6: an export under a timezone name the database does not know raises
    the 400 error "Wrong timezone" at the first step of the generator, which
    yields nothing at all; under a name the database knows the first step
    yields the document and no error is raised. *)
Theorem export_timezone_validation
    (calendar : schema.CalendarResponse) (timezone : string) :
  match pytz_timezone timezone with
  | None =>
      export_document calendar timezone =
        Err (HTTPException HTTP_400_BAD_REQUEST "Wrong timezone") /\
      next (IcsExport.export_to_ics calendar timezone) =
        (Raise (HTTPException HTTP_400_BAD_REQUEST "Wrong timezone"),
         IcsExport.GenClosed) /\
      forall fuel,
        fst (IcsExport.drain pytz_timezone now to_ical fuel
               (IcsExport.export_to_ics calendar timezone)) = []
  | Some tz =>
      exists doc,
        export_document calendar timezone = Ok doc /\
        next (IcsExport.export_to_ics calendar timezone) =
          (Yield (to_ical doc), IcsExport.GenSuspended) /\
        IcsExport.drain pytz_timezone now to_ical 2
          (IcsExport.export_to_ics calendar timezone) =
          ([to_ical doc], None)
  end.
Proof.
  destruct (pytz_timezone timezone) as [tz|] eqn:Htz.
  - destruct (export_document_valid pytz_timezone now calendar timezone tz Htz)
      as (doc & Hdoc & _).
    exists doc. split; [exact Hdoc|].
    unfold IcsExport.drain, IcsExport.next, IcsExport.export_to_ics.
    rewrite Hdoc. split; reflexivity.
  - pose proof (export_document_invalid pytz_timezone now calendar timezone Htz)
      as Hdoc.
    split; [exact Hdoc|].
    unfold IcsExport.next, IcsExport.export_to_ics.
    split; [rewrite Hdoc; reflexivity|].
    intros [|fuel]; simpl; [reflexivity|]. rewrite Hdoc. reflexivity.
Qed.

(** The document of an export that yields one. *)
Lemma export_document_inv calendar timezone doc :
  export_document calendar timezone = Ok doc ->
  exists tz,
    pytz_timezone timezone = Some tz /\
    cal_properties doc =
      [("version", VStr "2.0"); ("prodid", VStr "yet_another_calendar")] /\
    subcomponents doc =
      netology_entries tz 0
        (netology_schema.webinars (schema.netology calendar)) ++
      modeus_entries tz
        (length (List.filter IcsExport.exportable
                   (netology_schema.webinars (schema.netology calendar))))
        (schema.modeus calendar).
Proof.
  intros Hdoc.
  destruct (pytz_timezone timezone) as [tz|] eqn:Htz.
  - destruct (export_document_valid pytz_timezone now calendar timezone tz
                Htz) as (doc' & Hdoc' & Hp & Hc).
    rewrite Hdoc in Hdoc'. injection Hdoc' as <-.
    exists tz. auto.
  - rewrite (export_document_invalid pytz_timezone now calendar timezone Htz)
      in Hdoc.
    discriminate.
Qed.

(** An event without start or without end does not change what the export
    gives, be it a document or an error. *)
Lemma export_document_skip before after lesson modeus timezone :
  IcsExport.exportable lesson = false ->
  export_document
    {| schema.netology :=
         {| netology_schema.webinars := before ++ lesson :: after |};
       schema.modeus := modeus |} timezone =
  export_document
    {| schema.netology := {| netology_schema.webinars := before ++ after |};
       schema.modeus := modeus |} timezone.
Proof.
  intros Hx.
  destruct (pytz_timezone timezone) as [tz|] eqn:Htz.
  - destruct (export_document_valid pytz_timezone now
                {| schema.netology :=
                     {| netology_schema.webinars :=
                          before ++ lesson :: after |};
                   schema.modeus := modeus |} timezone tz Htz)
      as (doc & Hdoc & Hp & Hc).
    destruct (export_document_valid pytz_timezone now
                {| schema.netology :=
                     {| netology_schema.webinars := before ++ after |};
                   schema.modeus := modeus |} timezone tz Htz)
      as (doc' & Hdoc' & Hp' & Hc').
    simpl in Hc, Hc'. rewrite Hdoc, Hdoc'. f_equal.
    apply Calendar_eq; [congruence|].
    rewrite Hc, Hc'.
    rewrite !netology_entries_app, !filter_exportable_app. simpl.
    rewrite Hx. unfold IcsExport.exportable in Hx.
    destruct (netology_schema.starts_at lesson);
      [destruct (netology_schema.ends_at lesson)|]; try discriminate;
      reflexivity.
  - rewrite !(export_document_invalid pytz_timezone now _ timezone Htz).
    reflexivity.
Qed.

(** C7: a Netology event without start or without end adds nothing and
    never makes the export fail: the export gives exactly what it gives
    without that event. A Netology event with both times adds exactly one
    entry: the document exported with it has one entry more than the document
    exported without it. Every document exported has one entry per Netology
    event with both times plus one per Modeus event. *)
Theorem export_skip_rule
    (before after : list netology_schema.LessonWebinar)
    (lesson : netology_schema.LessonWebinar)
    (modeus : list modeus_schema.FullEvent) (timezone : string) :
  let with_lesson :=
    {| schema.netology :=
         {| netology_schema.webinars := before ++ lesson :: after |};
       schema.modeus := modeus |} in
  let without_lesson :=
    {| schema.netology := {| netology_schema.webinars := before ++ after |};
       schema.modeus := modeus |} in
  (netology_schema.starts_at lesson = None \/
   netology_schema.ends_at lesson = None ->
   export_document with_lesson timezone =
   export_document without_lesson timezone) /\
  (forall doc,
     export_document with_lesson timezone = Ok doc ->
     length (subcomponents doc) =
       (length (List.filter IcsExport.exportable (before ++ lesson :: after))
        + length modeus)%nat) /\
  (forall starts_at ends_at doc doc',
     netology_schema.starts_at lesson = Some starts_at ->
     netology_schema.ends_at lesson = Some ends_at ->
     export_document with_lesson timezone = Ok doc ->
     export_document without_lesson timezone = Ok doc' ->
     length (subcomponents doc) = S (length (subcomponents doc'))).
Proof.
  intros with_lesson without_lesson.
  assert (Hlen : forall calendar doc,
            export_document calendar timezone = Ok doc ->
            length (subcomponents doc) =
              (length (List.filter IcsExport.exportable
                         (netology_schema.webinars (schema.netology calendar)))
               + length (schema.modeus calendar))%nat).
  { intros calendar doc Hdoc.
    destruct (export_document_inv calendar timezone doc Hdoc)
      as (tz & _ & _ & Hc).
    rewrite Hc, length_app.
    rewrite (netology_entries_length now), (modeus_entries_length now).
    reflexivity. }
  split; [|split].
  - intros Hnone. apply export_document_skip.
    unfold IcsExport.exportable.
    destruct Hnone as [-> | Hend]; [reflexivity|].
    rewrite Hend. destruct (netology_schema.starts_at lesson); reflexivity.
  - intros doc Hdoc. exact (Hlen with_lesson doc Hdoc).
  - intros s e doc doc' Hs He Hdoc Hdoc'.
    rewrite (Hlen with_lesson doc Hdoc), (Hlen without_lesson doc' Hdoc').
    simpl. rewrite !filter_exportable_app, !length_app. simpl.
    unfold IcsExport.exportable at 2. rewrite Hs, He. simpl. lia.
Qed.

(** C8, as the code has it: [create_ics_event] adds the location whether or
    not there is a webinar URL, so an entry made without one (every Modeus
    entry among them) still carries a location property, its value being
    Python's [None]; the description next to it is added only when present. *)
Theorem location_added_without_url
    (clock : Z) (title : string) (starts_at ends_at : datetime)
    (lesson_id : value) (timezone : tzinfo) (description : option string) :
  let entry :=
    IcsExport.create_ics_event clock title starts_at ends_at lesson_id
      timezone description None in
  has "location" entry = true /\
  get "location" entry = Some VNone /\
  (forall lesson modeus_entry,
     IcsExport.from_modeus now timezone lesson modeus_entry ->
     has "location" modeus_entry = true) /\
  has "description"
    (IcsExport.create_ics_event clock title starts_at ends_at lesson_id
       timezone None None) = false.
Proof.
  assert (H : forall c t s e i z d,
            get "location" (IcsExport.create_ics_event c t s e i z d None) =
            Some VNone).
  { intros. unfold IcsExport.create_ics_event.
    destruct (truthy_str d); reflexivity. }
  cbv zeta. repeat split.
  - unfold has. rewrite H. reflexivity.
  - apply H.
  - intros lesson modeus_entry [k ->]. unfold has. rewrite H. reflexivity.
Qed.

(** C9: exporting the snapshot of the Netology event "Math" and the Modeus
    event "Physics" under "UTC" yields one document with exactly two entries,
    whose summaries are "Netology: Math" and "Modeus: Physics". *)
Theorem export_concrete_scenario (tz : tzinfo) :
  pytz_timezone "UTC" = Some tz ->
  exists doc,
    export_document Sample.scenario "UTC" = Ok doc /\
    next (IcsExport.export_to_ics Sample.scenario "UTC") =
      (Yield (to_ical doc), IcsExport.GenSuspended) /\
    length (subcomponents doc) = 2%nat /\
    map (get "summary") (subcomponents doc) =
      [Some (VStr "Netology: Math"); Some (VStr "Modeus: Physics")] /\
    map (get "uid") (subcomponents doc) = [Some (VInt 1); Some (VInt 2)].
Proof.
  intros Htz.
  destruct (export_document_valid pytz_timezone now Sample.scenario "UTC" tz
              Htz) as (doc & Hdoc & _ & Hc).
  exists doc. split; [exact Hdoc|].
  split.
  { unfold IcsExport.next, IcsExport.export_to_ics. rewrite Hdoc.
    reflexivity. }
  rewrite Hc. repeat split.
Qed.

(** C10: under a valid timezone the entries of the exported document are the
    entries of the Netology events that have both times, in the order of the
    snapshot, followed by the entries of the Modeus events, in the order of
    the snapshot. *)
Theorem export_entry_order
    (calendar : schema.CalendarResponse) (timezone : string) (tz : tzinfo)
    (doc : Calendar) :
  pytz_timezone timezone = Some tz ->
  export_document calendar timezone = Ok doc ->
  exists netology_part modeus_part,
    subcomponents doc = netology_part ++ modeus_part /\
    Forall2 (IcsExport.from_netology now tz)
      (List.filter IcsExport.exportable
         (netology_schema.webinars (schema.netology calendar)))
      netology_part /\
    Forall2 (IcsExport.from_modeus now tz) (schema.modeus calendar)
      modeus_part.
Proof.
  intros Htz Hdoc.
  destruct (export_document_inv calendar timezone doc Hdoc)
    as (tz' & Htz' & _ & Hc).
  rewrite Htz in Htz'. injection Htz' as <-.
  eexists. eexists. split; [exact Hc|].
  split; [apply netology_entries_from | apply modeus_entries_from].
Qed.

(** *** Further properties of the export *)

(** What each property of a created entry holds. *)
Lemma create_ics_event_get clock title starts_at ends_at lesson_id timezone
    description webinar_url :
  let entry :=
    IcsExport.create_ics_event clock title starts_at ends_at lesson_id
      timezone description webinar_url in
  get "summary" entry = Some (VStr title) /\
  get "location" entry = Some (of_optional webinar_url) /\
  get "dtstart" entry = Some (VDatetime (astimezone starts_at timezone)) /\
  get "dtend" entry = Some (VDatetime (astimezone ends_at timezone)) /\
  get "dtstamp" entry =
    Some (VDatetime (localize_utc (datetime_now clock timezone))) /\
  get "uid" entry = Some lesson_id /\
  get "description" entry =
    (if truthy_str description then Some (of_optional description) else None).
Proof.
  unfold IcsExport.create_ics_event. cbv zeta.
  destruct webinar_url as [url|], lesson_id as [|uid|uid|uid],
    description as [[|c text]|]; repeat split; reflexivity.
Qed.

(** Reading the Netology entries through [f] is reading the events that have
    both times through [g], when [f] sees an entry as [g] sees its event. *)
Lemma netology_entries_map {B : Type} (f : Event -> B)
    (g : netology_schema.LessonWebinar -> B) tz :
  (forall clock lesson starts_at ends_at,
     netology_schema.starts_at lesson = Some starts_at ->
     netology_schema.ends_at lesson = Some ends_at ->
     f (IcsExport.create_ics_event clock
          ("Netology: " +:+ netology_schema.title lesson)
          starts_at ends_at (netology_schema.id lesson) tz
          None (netology_schema.webinar_url lesson)) = g lesson) ->
  forall lessons k,
    map f (netology_entries tz k lessons) =
    map g (List.filter IcsExport.exportable lessons).
Proof.
  intros Hfg. induction lessons as [|lesson lessons IH]; intros k;
    [reflexivity|].
  simpl. unfold IcsExport.exportable at 1.
  destruct (netology_schema.starts_at lesson) as [s|] eqn:Hs;
    [destruct (netology_schema.ends_at lesson) as [e|] eqn:He|]; auto.
  simpl. rewrite IH, (Hfg _ lesson s e Hs He). reflexivity.
Qed.

Lemma modeus_entries_map {B : Type} (f : Event -> B)
    (g : modeus_schema.FullEvent -> B) tz :
  (forall clock lesson,
     f (IcsExport.create_ics_event clock
          ("Modeus: " +:+ modeus_schema.name lesson)
          (modeus_schema.start_time lesson) (modeus_schema.end_time lesson)
          (modeus_schema.id lesson) tz (modeus_schema.description lesson)
          None) = g lesson) ->
  forall lessons k, map f (modeus_entries tz k lessons) = map g lessons.
Proof.
  intros Hfg. induction lessons as [|lesson lessons IH]; intros k;
    [reflexivity|].
  simpl. rewrite IH, Hfg. reflexivity.
Qed.

(** The entries of an exported document, read through [f]. *)
Lemma export_document_map {B : Type} (f : Event -> B)
    (g : netology_schema.LessonWebinar -> B) (h : modeus_schema.FullEvent -> B)
    calendar timezone tz doc :
  pytz_timezone timezone = Some tz ->
  export_document calendar timezone = Ok doc ->
  (forall clock lesson starts_at ends_at,
     netology_schema.starts_at lesson = Some starts_at ->
     netology_schema.ends_at lesson = Some ends_at ->
     f (IcsExport.create_ics_event clock
          ("Netology: " +:+ netology_schema.title lesson)
          starts_at ends_at (netology_schema.id lesson) tz
          None (netology_schema.webinar_url lesson)) = g lesson) ->
  (forall clock lesson,
     f (IcsExport.create_ics_event clock
          ("Modeus: " +:+ modeus_schema.name lesson)
          (modeus_schema.start_time lesson) (modeus_schema.end_time lesson)
          (modeus_schema.id lesson) tz (modeus_schema.description lesson)
          None) = h lesson) ->
  map f (subcomponents doc) =
    map g (List.filter IcsExport.exportable
             (netology_schema.webinars (schema.netology calendar)))
    ++ map h (schema.modeus calendar).
Proof.
  intros Htz Hdoc Hg Hh.
  destruct (export_document_inv calendar timezone doc Hdoc)
    as (tz' & Htz' & _ & Hc).
  rewrite Htz in Htz'. injection Htz' as <-.
  rewrite Hc, map_app.
  rewrite (netology_entries_map f g tz Hg), (modeus_entries_map f h tz Hh).
  reflexivity.
Qed.

(** A property of every created entry holds of every entry of the loops. *)
Lemma netology_entries_Forall (P : Event -> Prop) tz :
  (forall clock lesson starts_at ends_at,
     P (IcsExport.create_ics_event clock
          ("Netology: " +:+ netology_schema.title lesson)
          starts_at ends_at (netology_schema.id lesson) tz
          None (netology_schema.webinar_url lesson))) ->
  forall lessons k, Forall P (netology_entries tz k lessons).
Proof.
  intros HP. induction lessons as [|lesson lessons IH]; intros k; simpl;
    [constructor|].
  destruct (netology_schema.starts_at lesson);
    [destruct (netology_schema.ends_at lesson)|]; try apply IH.
  constructor; [apply HP | apply IH].
Qed.

Lemma modeus_entries_Forall (P : Event -> Prop) tz :
  (forall clock lesson,
     P (IcsExport.create_ics_event clock
          ("Modeus: " +:+ modeus_schema.name lesson)
          (modeus_schema.start_time lesson) (modeus_schema.end_time lesson)
          (modeus_schema.id lesson) tz (modeus_schema.description lesson)
          None)) ->
  forall lessons k, Forall P (modeus_entries tz k lessons).
Proof.
  intros HP. induction lessons as [|lesson lessons IH]; intros k; simpl;
    constructor; [apply HP | apply IH].
Qed.

(** X1: in every document exported under a valid timezone, each entry keeps
    the instants of its event and expresses its start and its end in the
    target timezone, and the creation stamp of each entry is expressed in
    UTC. *)
Theorem export_times_in_target_timezone
    (calendar : schema.CalendarResponse) (timezone : string) (tz : tzinfo)
    (doc : Calendar) :
  pytz_timezone timezone = Some tz ->
  export_document calendar timezone = Ok doc ->
  map (fun entry => (get "dtstart" entry, get "dtend" entry))
    (subcomponents doc) =
    map (fun lesson =>
           (option_map (fun d => VDatetime
                          {| instant := instant d; Py.tz := Some tz |})
              (netology_schema.starts_at lesson),
            option_map (fun d => VDatetime
                          {| instant := instant d; Py.tz := Some tz |})
              (netology_schema.ends_at lesson)))
      (List.filter IcsExport.exportable
         (netology_schema.webinars (schema.netology calendar)))
    ++ map (fun lesson =>
              (Some (VDatetime
                       {| instant := instant (modeus_schema.start_time lesson);
                          Py.tz := Some tz |}),
               Some (VDatetime
                       {| instant := instant (modeus_schema.end_time lesson);
                          Py.tz := Some tz |})))
         (schema.modeus calendar) /\
  Forall (fun entry =>
            exists d, get "dtstamp" entry = Some (VDatetime d) /\
                      Py.tz d = Some utc)
    (subcomponents doc).
Proof.
  intros Htz Hdoc. split.
  - apply (export_document_map _ _ _ calendar timezone tz doc Htz Hdoc).
    + intros clock lesson s e Hs He. rewrite Hs, He.
      destruct (create_ics_event_get clock
                  ("Netology: " +:+ netology_schema.title lesson) s e
                  (netology_schema.id lesson) tz None
                  (netology_schema.webinar_url lesson))
        as (_ & _ & H1 & H2 & _).
      rewrite H1, H2. reflexivity.
    + intros clock lesson.
      destruct (create_ics_event_get clock
                  ("Modeus: " +:+ modeus_schema.name lesson)
                  (modeus_schema.start_time lesson)
                  (modeus_schema.end_time lesson) (modeus_schema.id lesson) tz
                  (modeus_schema.description lesson) None)
        as (_ & _ & H1 & H2 & _).
      rewrite H1, H2. reflexivity.
  - destruct (export_document_inv calendar timezone doc Hdoc)
      as (tz' & Htz' & _ & Hc).
    rewrite Htz in Htz'. injection Htz' as <-.
    rewrite Hc. apply Forall_app. split.
    + apply netology_entries_Forall. intros clock l s e.
      eexists. split; [apply create_ics_event_get | reflexivity].
    + apply modeus_entries_Forall. intros clock l.
      eexists. split; [apply create_ics_event_get | reflexivity].
Qed.

(** X2: in every document exported under a valid timezone, the unique
    identifiers of the entries are the identifiers of the source events, and
    the summaries are the titles behind "Netology: " and the names behind
    "Modeus: ": first the Netology events that have both times, then the
    Modeus events. *)
Theorem export_uids_and_summaries
    (calendar : schema.CalendarResponse) (timezone : string) (tz : tzinfo)
    (doc : Calendar) :
  pytz_timezone timezone = Some tz ->
  export_document calendar timezone = Ok doc ->
  map (fun entry => (get "uid" entry, get "summary" entry))
    (subcomponents doc) =
    map (fun lesson =>
           (Some (netology_schema.id lesson),
            Some (VStr ("Netology: " +:+ netology_schema.title lesson))))
      (List.filter IcsExport.exportable
         (netology_schema.webinars (schema.netology calendar)))
    ++ map (fun lesson =>
              (Some (modeus_schema.id lesson),
               Some (VStr ("Modeus: " +:+ modeus_schema.name lesson))))
         (schema.modeus calendar).
Proof.
  intros Htz Hdoc.
  apply (export_document_map _ _ _ calendar timezone tz doc Htz Hdoc).
  - intros clock lesson s e _ _.
    destruct (create_ics_event_get clock
                ("Netology: " +:+ netology_schema.title lesson) s e
                (netology_schema.id lesson) tz None
                (netology_schema.webinar_url lesson))
      as (H1 & _ & _ & _ & _ & H2 & _).
    rewrite H1, H2. reflexivity.
  - intros clock lesson.
    destruct (create_ics_event_get clock
                ("Modeus: " +:+ modeus_schema.name lesson)
                (modeus_schema.start_time lesson)
                (modeus_schema.end_time lesson) (modeus_schema.id lesson) tz
                (modeus_schema.description lesson) None)
      as (H1 & _ & _ & _ & _ & H2 & _).
    rewrite H1, H2. reflexivity.
Qed.

(** X3: in every document exported under a valid timezone, no Netology entry
    has a description, and a Modeus entry has one exactly when the
    description of its event is a non-empty string, which it then carries;
    [None] and the empty string add no description. *)
Theorem export_descriptions
    (calendar : schema.CalendarResponse) (timezone : string) (tz : tzinfo)
    (doc : Calendar) :
  pytz_timezone timezone = Some tz ->
  export_document calendar timezone = Ok doc ->
  map (get "description") (subcomponents doc) =
    map (fun _ => None)
      (List.filter IcsExport.exportable
         (netology_schema.webinars (schema.netology calendar)))
    ++ map (fun lesson =>
              match modeus_schema.description lesson with
              | Some "" => None
              | Some text => Some (VStr text)
              | None => None
              end)
         (schema.modeus calendar).
Proof.
  intros Htz Hdoc.
  apply (export_document_map _ _ _ calendar timezone tz doc Htz Hdoc).
  - intros clock lesson s e _ _.
    destruct (create_ics_event_get clock
                ("Netology: " +:+ netology_schema.title lesson) s e
                (netology_schema.id lesson) tz None
                (netology_schema.webinar_url lesson))
      as (_ & _ & _ & _ & _ & _ & H).
    exact H.
  - intros clock lesson.
    destruct (create_ics_event_get clock
                ("Modeus: " +:+ modeus_schema.name lesson)
                (modeus_schema.start_time lesson)
                (modeus_schema.end_time lesson) (modeus_schema.id lesson) tz
                (modeus_schema.description lesson) None)
      as (_ & _ & _ & _ & _ & _ & H).
    rewrite H.
    destruct (modeus_schema.description lesson) as [[|c text]|]; reflexivity.
Qed.

(** X4: in every document exported under a valid timezone, a Netology event
    of the snapshot that has both times and a webinar URL has an entry whose
    location is that URL. *)
Theorem export_location_of_webinar
    (calendar : schema.CalendarResponse) (timezone : string) (tz : tzinfo)
    (doc : Calendar) (lesson : netology_schema.LessonWebinar) (url : string) :
  pytz_timezone timezone = Some tz ->
  export_document calendar timezone = Ok doc ->
  In lesson (netology_schema.webinars (schema.netology calendar)) ->
  IcsExport.exportable lesson = true ->
  netology_schema.webinar_url lesson = Some url ->
  exists entry,
    In entry (subcomponents doc) /\
    IcsExport.from_netology now tz lesson entry /\
    get "location" entry = Some (VStr url).
Proof.
  intros Htz Hdoc Hin Hx Hurl.
  destruct (export_document_inv calendar timezone doc Hdoc)
    as (tz' & Htz' & _ & Hc).
  rewrite Htz in Htz'. injection Htz' as <-.
  assert (Hfound : forall lessons k,
            In lesson lessons ->
            exists entry,
              In entry (netology_entries tz k lessons) /\
              IcsExport.from_netology now tz lesson entry).
  { induction lessons as [|x lessons IH]; intros k Hin';
      [destruct Hin' | destruct Hin' as [Heq|Hin']]; simpl.
    - subst x. unfold IcsExport.exportable in Hx.
      destruct (netology_schema.starts_at lesson) as [s|] eqn:Hs;
        [destruct (netology_schema.ends_at lesson) as [e|] eqn:He|];
        try discriminate.
      eexists. split; [left; reflexivity|].
      exists k, s, e. auto.
    - destruct (netology_schema.starts_at x);
        [destruct (netology_schema.ends_at x)|];
        try (destruct (IH (S k) Hin') as (entry & H1 & H2);
             exists entry; split; [right; exact H1 | exact H2]);
        apply (IH k Hin'). }
  destruct (Hfound _ 0%nat Hin) as (entry & Hentry & Hfrom).
  exists entry.
  split; [rewrite Hc; apply in_or_app; left; exact Hentry|].
  split; [exact Hfrom|].
  destruct Hfrom as (k & s & e & _ & _ & ->).
  destruct (create_ics_event_get (now k)
              ("Netology: " +:+ netology_schema.title lesson) s e
              (netology_schema.id lesson) tz None
              (netology_schema.webinar_url lesson)) as (_ & H & _).
  rewrite H, Hurl. reflexivity.
Qed.

(** X5: the document-level properties are the same in every successful
    export: the version "2.0" and the product identifier
    "yet_another_calendar", whatever the snapshot and the timezone. *)
Theorem export_document_metadata
    (calendar : schema.CalendarResponse) (timezone : string) (doc : Calendar) :
  export_document calendar timezone = Ok doc ->
  cal_properties doc =
    [("version", VStr "2.0"); ("prodid", VStr "yet_another_calendar")].
Proof.
  intros Hdoc.
  destruct (pytz_timezone timezone) as [tz|] eqn:Htz.
  - destruct (export_document_valid pytz_timezone now calendar timezone tz
                Htz) as (doc' & Hdoc' & Hp & _).
    rewrite Hdoc in Hdoc'. injection Hdoc' as <-. exact Hp.
  - rewrite (export_document_invalid pytz_timezone now calendar timezone Htz)
      in Hdoc.
    discriminate.
Qed.

(** X6: a generator of [export_to_ics] yields at most one item, in whatever
    state it is and however long it is run; once it has yielded or raised it
    is exhausted, and the next step only ends the iteration. *)
Theorem export_yields_at_most_once (g : IcsExport.generator) (fuel : nat) :
  (length (fst (IcsExport.drain pytz_timezone now to_ical fuel g)) <= 1)%nat /\
  next (snd (next g)) = (StopIteration, IcsExport.GenClosed).
Proof.
  split.
  - destruct fuel as [|[|fuel]]; [simpl; lia | |].
    + destruct g as [calendar timezone| |]; simpl; try lia.
      destruct (IcsExport.export_document pytz_timezone now calendar timezone);
        simpl; lia.
    + destruct g as [calendar timezone| |]; simpl; try lia.
      destruct (IcsExport.export_document pytz_timezone now calendar timezone);
        simpl; lia.
  - destruct g as [calendar timezone| |]; simpl; try reflexivity.
    destruct (IcsExport.export_document pytz_timezone now calendar timezone);
      reflexivity.
Qed.

End ExportClaims.

(** * Properties of the aggregator and of the refresh *)

Lemma string_app_assoc (a b c : string) : (a +:+ b) +:+ c = a +:+ b +:+ c.
Proof.
  induction a as [|x a IH]; [reflexivity|].
  change (String x ((a +:+ b) +:+ c) = String x (a +:+ b +:+ c)).
  rewrite IH. reflexivity.
Qed.

Lemma bind_ok {A B} (m : M A) (k : A -> M B) w b w' :
  (m ≫= k) w = (Ok b, w') ->
  exists a w1, m w = (Ok a, w1) /\ k a w1 = (Ok b, w').
Proof.
  unfold mbind, M_bind, bind. destruct (m w) as [[a|e] w1]; intros H.
  - exists a, w1. split; [reflexivity | exact H].
  - discriminate.
Qed.

Lemma bind_run {A B} (m : M A) (k : A -> M B) w a w1 :
  m w = (Ok a, w1) -> (m ≫= k) w = k a w1.
Proof. unfold mbind, M_bind, bind. intros ->. reflexivity. Qed.

Lemma bind_fail {A B} (m : M A) (k : A -> M B) w e w1 :
  m w = (Err e, w1) -> (m ≫= k) w = (Err e, w1).
Proof. unfold mbind, M_bind, bind. intros ->. reflexivity. Qed.

Section RefreshProperties.

Variables ModeusEventsBody NetologyCookies : Type.
Variable settings : Settings.
Variable cache_config : FastAPICache.
Variable md5_hexdigest : string -> string.
Variable str_args :
  ModeusEventsBody -> string -> Z -> NetologyCookies -> string.
Variable get_hash : schema.CalendarResponse -> string.
Variable netology_views_get_calendar :
  nat -> ModeusEventsBody -> Z -> NetologyCookies ->
  Task netology_schema.CalendarResponse.
Variable modeus_views_get_calendar :
  nat -> ModeusEventsBody -> string -> Task (list modeus_schema.FullEvent).
Variable backend_fault : nat -> option string.

Local Abbreviation backend_set := (Bulk.backend_set backend_fault).
Local Abbreviation backend_get_with_ttl :=
  (Bulk.backend_get_with_ttl backend_fault).
Local Abbreviation get_calendar :=
  (Bulk.get_calendar ModeusEventsBody NetologyCookies
     netology_views_get_calendar modeus_views_get_calendar).
Local Abbreviation cached_key :=
  (Bulk.cached_key ModeusEventsBody NetologyCookies cache_config
     md5_hexdigest str_args).
Local Abbreviation refresh_key :=
  (Bulk.refresh_key ModeusEventsBody NetologyCookies settings
     md5_hexdigest str_args).
Local Abbreviation get_cached_calendar :=
  (Bulk.get_cached_calendar ModeusEventsBody NetologyCookies settings
     cache_config md5_hexdigest str_args netology_views_get_calendar
     modeus_views_get_calendar backend_fault).
Local Abbreviation refresh_write :=
  (Bulk.refresh_write ModeusEventsBody NetologyCookies settings cache_config
     md5_hexdigest str_args backend_fault).
Local Abbreviation refresh_events :=
  (Bulk.refresh_events ModeusEventsBody NetologyCookies settings cache_config
     md5_hexdigest str_args get_hash netology_views_get_calendar
     modeus_views_get_calendar backend_fault).

(** The world after one more collaborator call. *)
Local Abbreviation called w := (snd (tick w)).

(** *** The backend *)

Lemma backend_set_run key value expire w :
  backend_set key value expire w =
  match backend_fault (ticks w) with
  | Some message => (Err (Exception message), called w)
  | None =>
      (Ok tt,
       {| store := <[key := (value, expire)]> (store w);
          ticks := S (ticks w); log := log w |})
  end.
Proof.
  unfold Bulk.backend_set, mbind, M_bind, bind, tick. simpl.
  destruct (backend_fault (ticks w)); reflexivity.
Qed.

Lemma backend_get_run key w :
  backend_get_with_ttl key w =
  match backend_fault (ticks w) with
  | Some message => (Err (Exception message), called w)
  | None =>
      match store w !! key with
      | Some (value, expire) => (Ok (expire, Some value), called w)
      | None => (Ok (Some 0, None), called w)
      end
  end.
Proof.
  unfold Bulk.backend_get_with_ttl, mbind, M_bind, bind, tick.
  destruct w as [entries n records]. cbn [fst snd store ticks log].
  destruct (backend_fault n); [reflexivity|].
  change (store {| store := entries; ticks := S n; log := records |})
    with entries.
  destruct (entries !! key) as [[value expire]|]; reflexivity.
Qed.

(** *** The aggregator *)

(** What one run of [get_calendar] gives, read off how the two tasks end. *)
Lemma get_calendar_run body jwt_token calendar_id cookies w :
  get_calendar body jwt_token calendar_id cookies w =
  (match netology_views_get_calendar (ticks w) body calendar_id cookies,
         modeus_views_get_calendar (ticks w) body jwt_token with
   | Returned netology, Returned modeus =>
       Ok {| schema.netology := netology; schema.modeus := modeus |}
   | Raised a, Raised b =>
       Err (ExceptionGroup "unhandled errors in a TaskGroup" [a; b])
   | Raised a, _ => Err (ExceptionGroup "unhandled errors in a TaskGroup" [a])
   | _, Raised b => Err (ExceptionGroup "unhandled errors in a TaskGroup" [b])
   | _, _ => Err CancelledError
   end, called w).
Proof.
  unfold Bulk.get_calendar, mbind, M_bind, bind, tick. simpl.
  destruct (netology_views_get_calendar (ticks w) body calendar_id cookies),
    (modeus_views_get_calendar (ticks w) body jwt_token); reflexivity.
Qed.

Lemma get_calendar_ticks body jwt_token calendar_id cookies w :
  snd (get_calendar body jwt_token calendar_id cookies w) = called w.
Proof. rewrite get_calendar_run. reflexivity. Qed.

(** *** The keys *)

Lemma keys_agree body jwt_token calendar_id cookies :
  get_prefix cache_config = redis_prefix settings ->
  refresh_key body jwt_token calendar_id cookies =
  cached_key body jwt_token calendar_id cookies.
Proof.
  intros Hprefix.
  unfold Bulk.refresh_key, Bulk.cached_key, Bulk.default_key_builder.
  rewrite Hprefix, !string_app_assoc. reflexivity.
Qed.

(** *** The cached read *)

(** On a hit the decorator returns the decoded entry and calls nothing but
    the backend. *)
Lemma get_cached_calendar_hit body jwt_token calendar_id cookies w value expire :
  backend_fault (ticks w) = None ->
  store w !! cached_key body jwt_token calendar_id cookies =
    Some (value, expire) ->
  get_cached_calendar body jwt_token calendar_id cookies w =
  (match decode_as_type (get_coder cache_config) value with
   | Some calendar => Ok calendar
   | None => Err (Exception "decode")
   end, called w).
Proof.
  intros Hfault Hstore.
  unfold Bulk.get_cached_calendar, mbind, M_bind, bind, try_except.
  rewrite backend_get_run, Hfault, Hstore.
  destruct (decode_as_type (get_coder cache_config) value); reflexivity.
Qed.

(** On a miss the decorator runs [get_calendar] and returns its result: no
    error stands for the absent entry. *)
Lemma get_cached_calendar_miss body jwt_token calendar_id cookies w :
  store w !! cached_key body jwt_token calendar_id cookies = None ->
  fst (get_cached_calendar body jwt_token calendar_id cookies w) =
  match fst (get_calendar body jwt_token calendar_id cookies (called w)) with
  | Ok calendar =>
      match encode (get_coder cache_config) calendar with
      | Some _ => Ok calendar
      | None => Err (Exception "encode")
      end
  | Err e => Err e
  end /\
  ticks (snd (get_cached_calendar body jwt_token calendar_id cookies w)) =
  match fst (get_calendar body jwt_token calendar_id cookies (called w)) with
  | Ok calendar =>
      match encode (get_coder cache_config) calendar with
      | Some _ => (ticks w + 3)%nat
      | None => (ticks w + 2)%nat
      end
  | Err e => (ticks w + 2)%nat
  end.
Proof.
  intros Hstore.
  unfold Bulk.get_cached_calendar, mbind, M_bind, bind, try_except.
  rewrite backend_get_run, Hstore.
  assert (Hmiss :
    (let (r, w') :=
       match backend_fault (ticks w) with
       | Some message => (Err (Exception message), called w)
       | None => (Ok (Some 0, @None bytes), called w)
       end in
     match r with
     | Ok a => (Ok a, w')
     | Err e => if is_Exception e then ret (Some 0, None) w' else (Err e, w')
     end) = (Ok (Some 0, None), called w)).
  { destruct (backend_fault (ticks w)); reflexivity. }
  rewrite Hmiss. clear Hmiss.
  pose proof (get_calendar_ticks body jwt_token calendar_id cookies (called w))
    as Hticks.
  destruct (get_calendar body jwt_token calendar_id cookies (called w))
    as [[calendar|e] w1]; cbn [fst snd] in *; subst w1;
    [|split; [reflexivity | simpl; lia]].
  unfold lift_option.
  destruct (encode (get_coder cache_config) calendar) as [to_cache|];
    [|split; [reflexivity | simpl; lia]].
  unfold ret. rewrite backend_set_run. cbn [ticks tick snd].
  destruct (backend_fault (S (S (ticks w)))); split; simpl;
    (reflexivity || lia).
Qed.

(** *** The refresh *)

Lemma refresh_write_run body jwt_token calendar_id cookies calendar w :
  refresh_write body jwt_token calendar_id cookies calendar w =
  match encode (get_coder cache_config) calendar with
  | Some value =>
      backend_set (refresh_key body jwt_token calendar_id cookies) value
        (Some (redis_events_time_live settings)) w
  | None => (Err (Exception "encode"), w)
  end.
Proof.
  unfold Bulk.refresh_write, mbind, M_bind, bind, lift_option.
  destruct (encode (get_coder cache_config) calendar); reflexivity.
Qed.

(** Whatever the [try] block raises is an [Exception], so the handler of
    [refresh_events] catches it. *)
Lemma refresh_write_raises body jwt_token calendar_id cookies calendar w e w' :
  refresh_write body jwt_token calendar_id cookies calendar w = (Err e, w') ->
  is_Exception e = true.
Proof.
  rewrite refresh_write_run.
  destruct (encode (get_coder cache_config) calendar) as [value|].
  - rewrite backend_set_run.
    destruct (backend_fault (ticks w)); intros H; inversion H; reflexivity.
  - intros H; inversion H; reflexivity.
Qed.

(** The refresh after its two reads: the write decides the outcome. *)
Lemma refresh_events_run body jwt_token calendar_id cookies w
    cached w1 calendar w2 :
  get_cached_calendar body jwt_token calendar_id cookies w = (Ok cached, w1) ->
  get_calendar body jwt_token calendar_id cookies w1 = (Ok calendar, w2) ->
  refresh_events body jwt_token calendar_id cookies w =
  match refresh_write body jwt_token calendar_id cookies calendar w2 with
  | (Ok _, w3) =>
      (Ok {| schema.snapshot := calendar;
             schema.changed :=
               negb (String.eqb (get_hash cached) (get_hash calendar)) |},
       w3)
  | (Err e, w3) =>
      (Err (HTTPException HTTP_500_INTERNAL_SERVER_ERROR "Can't refresh redis"),
       {| store := store w3; ticks := ticks w3;
          log := log w3 ++ ["Got redis " +:+ str_exn e] |})
  end.
Proof.
  intros Hcached Hfresh.
  unfold Bulk.refresh_events.
  rewrite (bind_run _ _ _ _ _ Hcached), (bind_run _ _ _ _ _ Hfresh).
  unfold mbind, M_bind, bind, try_except.
  destruct (refresh_write body jwt_token calendar_id cookies calendar w2)
    as [[u|e] w3] eqn:Hwrite; [reflexivity|].
  rewrite (refresh_write_raises _ _ _ _ _ _ _ _ Hwrite). reflexivity.
Qed.

(** A refresh that returns went through its two reads and its write. *)
Lemma refresh_events_ok body jwt_token calendar_id cookies w r w' :
  refresh_events body jwt_token calendar_id cookies w = (Ok r, w') ->
  exists cached w1 w2,
    get_cached_calendar body jwt_token calendar_id cookies w =
      (Ok cached, w1) /\
    get_calendar body jwt_token calendar_id cookies w1 =
      (Ok (schema.snapshot r), w2) /\
    refresh_write body jwt_token calendar_id cookies (schema.snapshot r) w2 =
      (Ok tt, w') /\
    schema.changed r =
      negb (String.eqb (get_hash cached) (get_hash (schema.snapshot r))).
Proof.
  intros Hrun.
  destruct (get_cached_calendar body jwt_token calendar_id cookies w)
    as [[cached|e] w1] eqn:Hcached.
  - destruct (get_calendar body jwt_token calendar_id cookies w1)
      as [[calendar|e] w2] eqn:Hfresh.
    + rewrite (refresh_events_run _ _ _ _ _ _ _ _ _ Hcached Hfresh) in Hrun.
      destruct (refresh_write body jwt_token calendar_id cookies calendar w2)
        as [[[]|e] w3] eqn:Hwrite; inversion Hrun; subst.
      exists cached, w1, w2. simpl. auto.
    + unfold Bulk.refresh_events in Hrun.
      rewrite (bind_run _ _ _ _ _ Hcached), (bind_fail _ _ _ _ _ Hfresh)
        in Hrun.
      discriminate.
  - unfold Bulk.refresh_events in Hrun.
    rewrite (bind_fail _ _ _ _ _ Hcached) in Hrun. discriminate.
Qed.

(** *** The claims about the aggregator and the refresh *)

(** C1, as the code has it: when no snapshot is cached under the derived key,
    the refresh raises no error for the absent entry; the cached read falls
    back to a fresh aggregation, and when that aggregation and the one after
    it succeed, their snapshots can be encoded and the backend takes the
    write, the refresh returns the second snapshot with [changed] comparing
    the hashes of the two aggregations. *)
Theorem refresh_without_cached_snapshot
    body jwt_token calendar_id cookies (w : World.t)
    netology1 modeus1 netology2 modeus2 to_cache value :
  let first :=
    {| schema.netology := netology1; schema.modeus := modeus1 |} in
  let second :=
    {| schema.netology := netology2; schema.modeus := modeus2 |} in
  store w !! cached_key body jwt_token calendar_id cookies = None ->
  netology_views_get_calendar (ticks w + 1) body calendar_id cookies =
    Returned netology1 ->
  modeus_views_get_calendar (ticks w + 1) body jwt_token =
    Returned modeus1 ->
  encode (get_coder cache_config) first = Some to_cache ->
  netology_views_get_calendar (ticks w + 3) body calendar_id cookies =
    Returned netology2 ->
  modeus_views_get_calendar (ticks w + 3) body jwt_token =
    Returned modeus2 ->
  encode (get_coder cache_config) second = Some value ->
  backend_fault (ticks w + 4) = None ->
  fst (refresh_events body jwt_token calendar_id cookies w) =
    Ok {| schema.snapshot := second;
          schema.changed :=
            negb (String.eqb (get_hash first) (get_hash second)) |}.
Proof.
  intros first second Hmiss Hn1 Hm1 He1 Hn2 Hm2 He2 Hfault.
  destruct (get_cached_calendar_miss body jwt_token calendar_id cookies w
              Hmiss) as [Hfst Hticks].
  rewrite get_calendar_run in Hfst, Hticks. cbn [fst snd tick ticks] in *.
  replace (S (ticks w)) with (ticks w + 1)%nat in Hfst, Hticks by lia.
  rewrite Hn1, Hm1 in Hfst, Hticks. fold first in Hfst, Hticks.
  rewrite He1 in Hfst, Hticks.
  destruct (get_cached_calendar body jwt_token calendar_id cookies w)
    as [r1 w1] eqn:Hcached. cbn [fst snd] in *. subst r1.
  pose proof (get_calendar_run body jwt_token calendar_id cookies w1)
    as Hfresh.
  rewrite Hticks, Hn2, Hm2 in Hfresh. fold second in Hfresh.
  rewrite (refresh_events_run _ _ _ _ _ _ _ _ _ Hcached Hfresh).
  rewrite refresh_write_run, He2, backend_set_run.
  cbn [tick snd ticks]. rewrite Hticks.
  replace (S (ticks w + 3)) with (ticks w + 4)%nat by lia.
  rewrite Hfault. reflexivity.
Qed.

(** C2: when either upstream task does not return, [get_calendar] raises and
    returns no snapshot at all; when a task raised, what is raised is the
    exception group of the task group, holding the errors of the tasks. *)
Theorem get_calendar_all_or_nothing
    body jwt_token calendar_id cookies (w : World.t) :
  let netology_response :=
    netology_views_get_calendar (ticks w) body calendar_id cookies in
  let modeus_response := modeus_views_get_calendar (ticks w) body jwt_token in
  (forall netology, netology_response <> Returned netology) \/
  (forall modeus, modeus_response <> Returned modeus) ->
  (exists e,
     fst (get_calendar body jwt_token calendar_id cookies w) = Err e) /\
  (forall calendar,
     fst (get_calendar body jwt_token calendar_id cookies w) <> Ok calendar) /\
  (exception netology_response ++ exception modeus_response <> [] ->
   fst (get_calendar body jwt_token calendar_id cookies w) =
     Err (ExceptionGroup "unhandled errors in a TaskGroup"
            (exception netology_response ++ exception modeus_response))).
Proof.
  intros netology_response modeus_response Hfailed.
  rewrite get_calendar_run. cbn [fst].
  fold netology_response modeus_response.
  destruct netology_response as [netology|a|], modeus_response as [modeus|b|];
    cbn [exception app];
    try (destruct Hfailed as [H|H];
         [exfalso; exact (H _ eq_refl)
         |try (exfalso; exact (H _ eq_refl))]);
    (split; [eexists; reflexivity|]);
    (split; [discriminate|]); intros Herrors; try reflexivity;
    try (exfalso; apply Herrors; reflexivity).
  all: destruct Hfailed as [H|H]; exfalso; exact (H _ eq_refl).
Qed.

(** C3: a refresh that returns carries the snapshot of its fresh aggregation,
    and its [changed] flag is the inequality of the hash of the snapshot the
    cached read gave and the hash of that fresh snapshot: false when the two
    hashes are the same, true when they differ. *)
Theorem refresh_change_detection
    body jwt_token calendar_id cookies (w : World.t) r :
  fst (refresh_events body jwt_token calendar_id cookies w) = Ok r ->
  exists cached w1,
    get_cached_calendar body jwt_token calendar_id cookies w =
      (Ok cached, w1) /\
    fst (get_calendar body jwt_token calendar_id cookies w1) =
      Ok (schema.snapshot r) /\
    schema.changed r =
      negb (String.eqb (get_hash cached) (get_hash (schema.snapshot r))) /\
    (get_hash cached = get_hash (schema.snapshot r) ->
     schema.changed r = false) /\
    (get_hash cached <> get_hash (schema.snapshot r) ->
     schema.changed r = true).
Proof.
  intros Hrun.
  destruct (refresh_events body jwt_token calendar_id cookies w)
    as [r' w'] eqn:Hfull. cbn [fst] in Hrun. subst r'.
  destruct (refresh_events_ok _ _ _ _ _ _ _ Hfull)
    as (cached & w1 & w2 & Hcached & Hfresh & _ & Hchanged).
  exists cached, w1. split; [exact Hcached|].
  split; [rewrite Hfresh; reflexivity|].
  split; [exact Hchanged|].
  rewrite Hchanged. split.
  - intros ->. rewrite String.eqb_refl. reflexivity.
  - intros Hne. apply String.eqb_neq in Hne. rewrite Hne. reflexivity.
Qed.

(** C4: when the cached read and the fresh aggregation succeed and the write
    of the fresh snapshot then fails, because the snapshot cannot be encoded
    or because the backend raises, the refresh raises the 500 error "Can't
    refresh redis", logs the failure and returns no snapshot. *)
Theorem refresh_cache_write_failure
    body jwt_token calendar_id cookies (w : World.t) cached calendar :
  let w1 := snd (get_cached_calendar body jwt_token calendar_id cookies w) in
  fst (get_cached_calendar body jwt_token calendar_id cookies w) = Ok cached ->
  fst (get_calendar body jwt_token calendar_id cookies w1) = Ok calendar ->
  encode (get_coder cache_config) calendar = None \/
  (exists message, backend_fault (S (ticks w1)) = Some message) ->
  fst (refresh_events body jwt_token calendar_id cookies w) =
    Err (HTTPException HTTP_500_INTERNAL_SERVER_ERROR "Can't refresh redis") /\
  (forall r,
     fst (refresh_events body jwt_token calendar_id cookies w) <> Ok r) /\
  exists message,
    last (log (snd (refresh_events body jwt_token calendar_id cookies w))) =
      Some ("Got redis " +:+ message).
Proof.
  intros w1 Hcached Hfresh Hfail.
  destruct (get_cached_calendar body jwt_token calendar_id cookies w)
    as [r1 w1'] eqn:Hc. cbn [fst snd] in *. subst r1 w1.
  pose proof (get_calendar_ticks body jwt_token calendar_id cookies w1')
    as Hticks.
  destruct (get_calendar body jwt_token calendar_id cookies w1')
    as [r2 w2] eqn:Hg. cbn [fst snd] in *. subst r2 w2.
  rewrite (refresh_events_run _ _ _ _ _ _ _ _ _ Hc Hg).
  rewrite refresh_write_run.
  destruct (encode (get_coder cache_config) calendar) as [value|].
  - destruct Hfail as [Hfail|[message Hfault]]; [discriminate|].
    rewrite backend_set_run. cbn [tick snd ticks]. rewrite Hfault.
    cbn [fst snd log]. repeat split; [discriminate|].
    exists message. rewrite last_snoc. reflexivity.
  - cbn [fst snd log]. repeat split; [discriminate|].
    exists "encode". rewrite last_snoc. reflexivity.
Qed.


(** *** Further properties of the aggregator, the cached read and the
    refresh *)

Lemma string_length_app (a b : string) :
  String.length (a +:+ b) = (String.length a + String.length b)%nat.
Proof.
  induction a as [|x a IH]; [reflexivity|].
  change (S (String.length (a +:+ b)) = S (String.length a + String.length b)).
  rewrite IH. reflexivity.
Qed.

Lemma string_app_inv_r (a b c : string) : a +:+ c = b +:+ c -> a = b.
Proof.
  revert b. induction a as [|x a IH]; intros [|y b] H.
  - reflexivity.
  - apply (f_equal String.length) in H.
    change (String.length c = S (String.length (b +:+ c))) in H.
    rewrite string_length_app in H. lia.
  - apply (f_equal String.length) in H.
    change (S (String.length (a +:+ c)) = String.length c) in H.
    rewrite string_length_app in H. lia.
  - change (String x (a +:+ c) = String y (b +:+ c)) in H.
    injection H as -> H. rewrite (IH b H). reflexivity.
Qed.

(** The two keys differ as soon as the two namespaces differ. *)
Lemma keys_agree_inv body jwt_token calendar_id cookies :
  refresh_key body jwt_token calendar_id cookies =
    cached_key body jwt_token calendar_id cookies ->
  get_prefix cache_config = redis_prefix settings.
Proof.
  unfold Bulk.refresh_key, Bulk.cached_key, Bulk.default_key_builder.
  rewrite !string_app_assoc. intros H.
  symmetry. exact (string_app_inv_r _ _ _ H).
Qed.

(** The cached read when the lookup gives nothing, because the entry is
    absent or because the backend raised: the function runs, its encoded
    result is stored if the backend takes it, and the result is returned. *)
Lemma get_cached_calendar_fresh body jwt_token calendar_id cookies w :
  backend_fault (ticks w) <> None \/
  store w !! cached_key body jwt_token calendar_id cookies = None ->
  get_cached_calendar body jwt_token calendar_id cookies w =
  match get_calendar body jwt_token calendar_id cookies (called w) with
  | (Ok calendar, w2) =>
      match encode (get_coder cache_config) calendar with
      | Some to_cache =>
          (Ok calendar,
           match backend_fault (ticks w2) with
           | Some _ => called w2
           | None =>
               {| store :=
                    <[cached_key body jwt_token calendar_id cookies :=
                        (to_cache,
                         Bulk.expire_or (redis_events_time_live settings)
                           (get_expire cache_config))]> (store w2);
                  ticks := S (ticks w2); log := log w2 |}
           end)
      | None => (Err (Exception "encode"), w2)
      end
  | (Err e, w2) => (Err e, w2)
  end.
Proof.
  intros Hnothing.
  unfold Bulk.get_cached_calendar, mbind, M_bind, bind, try_except.
  rewrite backend_get_run.
  assert (Hmiss :
    (let (r, w') :=
       match backend_fault (ticks w) with
       | Some message => (Err (Exception message), called w)
       | None =>
           match store w !! cached_key body jwt_token calendar_id cookies with
           | Some (value, expire) => (Ok (expire, Some value), called w)
           | None => (Ok (Some 0, None), called w)
           end
       end in
     match r with
     | Ok a => (Ok a, w')
     | Err e => if is_Exception e then ret (Some 0, None) w' else (Err e, w')
     end) = (Ok (Some 0, @None bytes), called w)).
  { destruct (backend_fault (ticks w)) as [message|]; [reflexivity|].
    destruct Hnothing as [Hfault|Hstore]; [congruence|].
    rewrite Hstore. reflexivity. }
  rewrite Hmiss. clear Hmiss.
  destruct (get_calendar body jwt_token calendar_id cookies (called w))
    as [[calendar|e] w2]; [|reflexivity].
  unfold lift_option.
  destruct (encode (get_coder cache_config) calendar) as [to_cache|];
    [|reflexivity].
  unfold ret. rewrite backend_set_run.
  destruct (backend_fault (ticks w2)); reflexivity.
Qed.


(** X8: with an entry under its key that the coder can read, and the backend
    answering, the cached read returns the cached snapshot and leaves the
    cache as it is, whatever the upstream sources would answer. *)
Theorem cached_read_serves_entry
    body jwt_token calendar_id cookies (w : World.t) value expire calendar :
  backend_fault (ticks w) = None ->
  store w !! cached_key body jwt_token calendar_id cookies =
    Some (value, expire) ->
  decode_as_type (get_coder cache_config) value = Some calendar ->
  fst (get_cached_calendar body jwt_token calendar_id cookies w) =
    Ok calendar /\
  store (snd (get_cached_calendar body jwt_token calendar_id cookies w)) =
    store w /\
  ticks (snd (get_cached_calendar body jwt_token calendar_id cookies w)) =
    S (ticks w).
Proof.
  intros Hfault Hstore Hdecode.
  rewrite (get_cached_calendar_hit _ _ _ _ _ _ _ Hfault Hstore), Hdecode.
  repeat split.
Qed.

(** X9: a cached read that finds no entry stores what it fetched: when the
    aggregation succeeds, its snapshot can be encoded and the backend takes
    the write, the snapshot is returned, the cache holds its encoding under
    the key of the read, and a cached read that follows returns the same
    snapshot from the cache when the coder reads the encoding back. *)
Theorem cached_read_populates_cache
    body jwt_token calendar_id cookies (w : World.t) calendar to_cache :
  let w' := snd (get_cached_calendar body jwt_token calendar_id cookies w) in
  store w !! cached_key body jwt_token calendar_id cookies = None ->
  fst (get_calendar body jwt_token calendar_id cookies (called w)) =
    Ok calendar ->
  encode (get_coder cache_config) calendar = Some to_cache ->
  backend_fault (ticks w + 2) = None ->
  fst (get_cached_calendar body jwt_token calendar_id cookies w) =
    Ok calendar /\
  store w' !! cached_key body jwt_token calendar_id cookies =
    Some (to_cache,
          Bulk.expire_or (redis_events_time_live settings)
            (get_expire cache_config)) /\
  (backend_fault (ticks w') = None ->
   decode_as_type (get_coder cache_config) to_cache = Some calendar ->
   get_cached_calendar body jwt_token calendar_id cookies w' =
     (Ok calendar, called w')).
Proof.
  intros w' Hmiss Hfresh Hencode Hfault. subst w'.
  rewrite get_cached_calendar_fresh by (right; exact Hmiss).
  pose proof (get_calendar_ticks body jwt_token calendar_id cookies (called w))
    as Hticks.
  destruct (get_calendar body jwt_token calendar_id cookies (called w))
    as [r w2]. cbn [fst snd] in *. subst r w2.
  rewrite Hencode. cbn [fst snd tick ticks].
  replace (S (S (ticks w))) with (ticks w + 2)%nat by lia.
  rewrite Hfault.
  match goal with
  | |- context [store ?final !! _] =>
      assert (Hstore :
        store final !! cached_key body jwt_token calendar_id cookies =
        Some (to_cache,
              Bulk.expire_or (redis_events_time_live settings)
                (get_expire cache_config)))
  end.
  { cbn [store]. apply lookup_insert_eq. }
  split; [reflexivity|].
  split; [exact Hstore|].
  intros Hfault' Hdecode.
  rewrite (get_cached_calendar_hit _ _ _ _ _ _ _ Hfault' Hstore), Hdecode.
  reflexivity.
Qed.

(** X10: when the backend raises at the lookup, the cached read does not
    fail for that: it runs the aggregation as on a miss, even when an entry
    is stored under the key, and returns the fresh snapshot. *)
Theorem cached_read_survives_backend_failure
    body jwt_token calendar_id cookies (w : World.t) message calendar to_cache :
  backend_fault (ticks w) = Some message ->
  fst (get_calendar body jwt_token calendar_id cookies (called w)) =
    Ok calendar ->
  encode (get_coder cache_config) calendar = Some to_cache ->
  fst (get_cached_calendar body jwt_token calendar_id cookies w) =
    Ok calendar.
Proof.
  intros Hfault Hfresh Hencode.
  rewrite get_cached_calendar_fresh by (left; congruence).
  destruct (get_calendar body jwt_token calendar_id cookies (called w))
    as [r w2]. cbn [fst] in Hfresh. subst r.
  rewrite Hencode. reflexivity.
Qed.

(** X11: when the backend raises at the write that follows a miss, the
    cached read still returns the fresh snapshot; the cache and the log of
    the module stay as they were. *)
Theorem cached_read_swallows_write_failure
    body jwt_token calendar_id cookies (w : World.t) message calendar to_cache :
  store w !! cached_key body jwt_token calendar_id cookies = None ->
  fst (get_calendar body jwt_token calendar_id cookies (called w)) =
    Ok calendar ->
  encode (get_coder cache_config) calendar = Some to_cache ->
  backend_fault (ticks w + 2) = Some message ->
  fst (get_cached_calendar body jwt_token calendar_id cookies w) =
    Ok calendar /\
  store (snd (get_cached_calendar body jwt_token calendar_id cookies w)) =
    store w /\
  log (snd (get_cached_calendar body jwt_token calendar_id cookies w)) =
    log w.
Proof.
  intros Hmiss Hfresh Hencode Hfault.
  rewrite get_cached_calendar_fresh by (right; exact Hmiss).
  pose proof (get_calendar_ticks body jwt_token calendar_id cookies (called w))
    as Hticks.
  destruct (get_calendar body jwt_token calendar_id cookies (called w))
    as [r w2]. cbn [fst snd] in *. subst r w2.
  rewrite Hencode. cbn [fst snd tick ticks].
  replace (S (S (ticks w))) with (ticks w + 2)%nat by lia.
  rewrite Hfault. repeat split.
Qed.

(** X12: when the cached read succeeds and the fresh aggregation fails, the
    refresh fails with the error of the aggregation itself, not with the 500
    error of the write; it writes nothing to the cache and logs nothing. *)
Theorem refresh_upstream_failure
    body jwt_token calendar_id cookies (w : World.t) cached e :
  let w1 := snd (get_cached_calendar body jwt_token calendar_id cookies w) in
  fst (get_cached_calendar body jwt_token calendar_id cookies w) = Ok cached ->
  fst (get_calendar body jwt_token calendar_id cookies w1) = Err e ->
  fst (refresh_events body jwt_token calendar_id cookies w) = Err e /\
  store (snd (refresh_events body jwt_token calendar_id cookies w)) =
    store w1 /\
  log (snd (refresh_events body jwt_token calendar_id cookies w)) = log w1.
Proof.
  intros w1 Hcached Hfresh.
  destruct (get_cached_calendar body jwt_token calendar_id cookies w)
    as [r1 w1'] eqn:Hc. cbn [fst snd] in *. subst r1 w1.
  pose proof (get_calendar_ticks body jwt_token calendar_id cookies w1')
    as Hticks.
  destruct (get_calendar body jwt_token calendar_id cookies w1')
    as [r2 w2] eqn:Hg. cbn [fst snd] in *. subst r2 w2.
  unfold Bulk.refresh_events.
  rewrite (bind_run _ _ _ _ _ Hc), (bind_fail _ _ _ _ _ Hg).
  repeat split.
Qed.

(** X13: when the write of the refresh fails, the cache is left as the
    cached read left it: the entry is not replaced by the fresh snapshot. *)
Theorem refresh_failed_write_keeps_cache
    body jwt_token calendar_id cookies (w : World.t) cached calendar :
  let w1 := snd (get_cached_calendar body jwt_token calendar_id cookies w) in
  fst (get_cached_calendar body jwt_token calendar_id cookies w) = Ok cached ->
  fst (get_calendar body jwt_token calendar_id cookies w1) = Ok calendar ->
  encode (get_coder cache_config) calendar = None \/
  (exists message, backend_fault (S (ticks w1)) = Some message) ->
  store (snd (refresh_events body jwt_token calendar_id cookies w)) =
    store w1.
Proof.
  intros w1 Hcached Hfresh Hfail.
  destruct (get_cached_calendar body jwt_token calendar_id cookies w)
    as [r1 w1'] eqn:Hc. cbn [fst snd] in *. subst r1 w1.
  pose proof (get_calendar_ticks body jwt_token calendar_id cookies w1')
    as Hticks.
  destruct (get_calendar body jwt_token calendar_id cookies w1')
    as [r2 w2] eqn:Hg. cbn [fst snd] in *. subst r2 w2.
  rewrite (refresh_events_run _ _ _ _ _ _ _ _ _ Hc Hg).
  rewrite refresh_write_run.
  destruct (encode (get_coder cache_config) calendar) as [value|].
  - destruct Hfail as [Hfail|[message Hfault]]; [discriminate|].
    rewrite backend_set_run. cbn [tick snd ticks]. rewrite Hfault.
    reflexivity.
  - reflexivity.
Qed.


(** X15: the key the refresh writes under is the key of the cached read
    exactly when the cache library was initialised with the namespace of the
    settings. *)
Theorem keys_agree_iff body jwt_token calendar_id cookies :
  refresh_key body jwt_token calendar_id cookies =
    cached_key body jwt_token calendar_id cookies <->
  get_prefix cache_config = redis_prefix settings.
Proof. split; [apply keys_agree_inv | apply keys_agree]. Qed.

(** X16: when the cache library was initialised with another namespace than
    the one of the settings, a refresh does not reach the entry the cached
    read serves: after a refresh that found an entry and returned, the same
    entry is still stored under the key of the cached read, and a cached read
    that follows returns the old snapshot. *)
Theorem refresh_misses_entry_on_other_namespace
    body jwt_token calendar_id cookies (w : World.t) value expire cached r :
  let w' := snd (refresh_events body jwt_token calendar_id cookies w) in
  get_prefix cache_config <> redis_prefix settings ->
  backend_fault (ticks w) = None ->
  store w !! cached_key body jwt_token calendar_id cookies =
    Some (value, expire) ->
  decode_as_type (get_coder cache_config) value = Some cached ->
  fst (refresh_events body jwt_token calendar_id cookies w) = Ok r ->
  store w' !! cached_key body jwt_token calendar_id cookies =
    Some (value, expire) /\
  (backend_fault (ticks w') = None ->
   get_cached_calendar body jwt_token calendar_id cookies w' =
     (Ok cached, called w')).
Proof.
  intros w' Hprefix Hfault Hstore Hdecode Hrun.
  assert (Hkeys : refresh_key body jwt_token calendar_id cookies <>
                  cached_key body jwt_token calendar_id cookies).
  { intros H. apply Hprefix. exact (keys_agree_inv _ _ _ _ H). }
  destruct (refresh_events body jwt_token calendar_id cookies w)
    as [r' w''] eqn:Hfull. cbn [fst snd] in *. subst r' w'.
  destruct (refresh_events_ok _ _ _ _ _ _ _ Hfull)
    as (cached' & w1 & w2 & Hcached & Hfresh & Hwrite & _).
  rewrite (get_cached_calendar_hit _ _ _ _ _ _ _ Hfault Hstore), Hdecode
    in Hcached.
  injection Hcached as _ Hw1. subst w1.
  pose proof (f_equal snd Hfresh) as Hticks.
  rewrite get_calendar_ticks in Hticks. cbn [snd] in Hticks. subst w2.
  rewrite refresh_write_run in Hwrite.
  destruct (encode (get_coder cache_config) (schema.snapshot r))
    as [value'|]; [|discriminate].
  rewrite backend_set_run in Hwrite.
  match type of Hwrite with
  | context [backend_fault ?n] => destruct (backend_fault n)
  end; [discriminate|].
  injection Hwrite as Hw. subst w''.
  match goal with
  | |- context [store ?final !! _] =>
      assert (Hkept :
        store final !! cached_key body jwt_token calendar_id cookies =
        Some (value, expire))
  end.
  { cbn [store tick snd]. rewrite lookup_insert_ne by exact Hkeys.
    exact Hstore. }
  split; [exact Hkept|].
  intros Hfault'.
  rewrite (get_cached_calendar_hit _ _ _ _ _ _ _ Hfault' Hkept), Hdecode.
  reflexivity.
Qed.

(** X17: a refresh that finds an entry makes three collaborator calls, one of
    them upstream: when the backend answers the lookup, the coder reads the
    entry, both upstream tasks return, the fresh snapshot can be encoded and
    the backend takes the write, the refresh returns the fresh snapshot with
    [changed] comparing the hash of the cached snapshot with the hash of the
    fresh one. *)
Theorem refresh_with_cached_snapshot
    body jwt_token calendar_id cookies (w : World.t)
    value expire cached netology modeus fresh_value :
  let fresh := {| schema.netology := netology; schema.modeus := modeus |} in
  backend_fault (ticks w) = None ->
  store w !! cached_key body jwt_token calendar_id cookies =
    Some (value, expire) ->
  decode_as_type (get_coder cache_config) value = Some cached ->
  netology_views_get_calendar (ticks w + 1) body calendar_id cookies =
    Returned netology ->
  modeus_views_get_calendar (ticks w + 1) body jwt_token = Returned modeus ->
  encode (get_coder cache_config) fresh = Some fresh_value ->
  backend_fault (ticks w + 2) = None ->
  fst (refresh_events body jwt_token calendar_id cookies w) =
    Ok {| schema.snapshot := fresh;
          schema.changed :=
            negb (String.eqb (get_hash cached) (get_hash fresh)) |} /\
  ticks (snd (refresh_events body jwt_token calendar_id cookies w)) =
    (ticks w + 3)%nat.
Proof.
  intros fresh Hfault Hstore Hdecode Hn Hm Hencode Hfault'.
  pose proof (get_cached_calendar_hit _ _ _ _ _ _ _ Hfault Hstore) as Hcached.
  rewrite Hdecode in Hcached.
  pose proof (get_calendar_run body jwt_token calendar_id cookies (called w))
    as Hfresh.
  replace (ticks w + 1)%nat with (S (ticks w)) in Hn, Hm by lia.
  replace (ticks w + 2)%nat with (S (S (ticks w))) in Hfault' by lia.
  change (ticks (called w)) with (S (ticks w)) in Hfresh.
  rewrite Hn, Hm in Hfresh. fold fresh in Hfresh.
  rewrite (refresh_events_run _ _ _ _ _ _ _ _ _ Hcached Hfresh).
  rewrite refresh_write_run, Hencode, backend_set_run.
  change (ticks (called (called w))) with (S (S (ticks w))).
  rewrite Hfault'. cbn [fst snd ticks tick]. split; [reflexivity | lia].
Qed.

End RefreshProperties.


(** * The claims on the sample collaborators *)

Lemma export_timezone_validation_witness :
  Sample.next (IcsExport.export_to_ics Sample.scenario "Not/AZone") =
    (Raise (HTTPException 400 "Wrong timezone"), IcsExport.GenClosed) /\
  exists doc,
    Sample.next (IcsExport.export_to_ics Sample.scenario "UTC") =
      (Yield (Sample.to_ical doc), IcsExport.GenSuspended).
Proof.
  split.
  - exact (proj1 (proj2
      (export_timezone_validation Sample.pytz_timezone Sample.now
         Sample.to_ical Sample.scenario "Not/AZone"))).
  - destruct (export_timezone_validation Sample.pytz_timezone Sample.now
                Sample.to_ical Sample.scenario "UTC") as (doc & _ & H & _).
    exists doc. exact H.
Defined.

Lemma export_skip_rule_witness :
  Sample.export_document Sample.mixed "UTC" =
    Sample.export_document
      {| schema.netology := {| netology_schema.webinars := [Sample.math] |};
         schema.modeus := [Sample.physics; Sample.chemistry] |} "UTC" /\
  exists doc doc',
    Sample.export_document Sample.mixed "UTC" = Ok doc /\
    Sample.export_document
      {| schema.netology :=
           {| netology_schema.webinars := [Sample.unscheduled] |};
         schema.modeus := [Sample.physics; Sample.chemistry] |} "UTC" =
      Ok doc' /\
    length (subcomponents doc) = 3%nat /\
    length (subcomponents doc) = S (length (subcomponents doc')).
Proof.
  split.
  - apply (proj1 (export_skip_rule Sample.pytz_timezone Sample.now
                    [] [Sample.math] Sample.unscheduled
                    [Sample.physics; Sample.chemistry] "UTC")).
    left. reflexivity.
  - eexists. eexists. split; [reflexivity|]. split; [reflexivity|].
    destruct (export_skip_rule Sample.pytz_timezone Sample.now
                [Sample.unscheduled] [] Sample.math
                [Sample.physics; Sample.chemistry] "UTC") as (_ & H2 & H3).
    split.
    + apply H2. reflexivity.
    + apply (H3 (Sample.at_utc 1704103200) (Sample.at_utc 1704106800));
        reflexivity.
Defined.

Lemma export_concrete_scenario_witness :
  Sample.pytz_timezone "UTC" = Some Sample.utc /\
  exists doc,
    Sample.export_document Sample.scenario "UTC" = Ok doc /\
    Sample.next (IcsExport.export_to_ics Sample.scenario "UTC") =
      (Yield (Sample.to_ical doc), IcsExport.GenSuspended) /\
    length (subcomponents doc) = 2%nat /\
    map (get "summary") (subcomponents doc) =
      [Some (VStr "Netology: Math"); Some (VStr "Modeus: Physics")] /\
    map (get "uid") (subcomponents doc) = [Some (VInt 1); Some (VInt 2)].
Proof.
  split; [reflexivity|].
  exact (export_concrete_scenario Sample.pytz_timezone Sample.now
           Sample.to_ical Sample.utc eq_refl).
Defined.

Lemma export_entry_order_witness :
  exists doc,
    Sample.export_document Sample.mixed "Europe/Moscow" = Ok doc /\
    exists netology_part modeus_part,
      subcomponents doc = netology_part ++ modeus_part /\
      Forall2
        (IcsExport.from_netology Sample.now {| zone := "Europe/Moscow" |})
        [Sample.math] netology_part /\
      Forall2 (IcsExport.from_modeus Sample.now {| zone := "Europe/Moscow" |})
        [Sample.physics; Sample.chemistry] modeus_part.
Proof.
  eexists. split; [reflexivity|].
  apply (export_entry_order Sample.pytz_timezone Sample.now Sample.mixed
           "Europe/Moscow" {| zone := "Europe/Moscow" |});
    reflexivity.
Defined.

(** C1, as the claim states it, fails: with an empty cache and both upstream
    sources answering, the refresh returns a refreshed snapshot. *)
Lemma refresh_cache_miss_counterexample :
  store Sample.empty_world !! Sample.cached_key = None /\
  fst (Sample.refresh_events Sample.modeus_up Sample.no_fault
         Sample.empty_world) =
    Ok {| schema.snapshot := Sample.scenario; schema.changed := false |}.
Proof. split; vm_compute; reflexivity. Qed.

Lemma refresh_without_cached_snapshot_witness :
  store Sample.empty_world !! Sample.cached_key = None /\
  fst (Sample.refresh_events Sample.modeus_changing Sample.no_fault
         Sample.empty_world) =
    Ok {| schema.snapshot := Sample.scenario_later; schema.changed := true |}.
Proof.
  split; [vm_compute; reflexivity|].
  apply (refresh_without_cached_snapshot string string Sample.settings
           Sample.cache_config Sample.md5_hexdigest Sample.str_args
           Sample.get_hash Sample.netology_up Sample.modeus_changing
           Sample.no_fault "body" "jwt" 45526 "cookies" Sample.empty_world
           {| netology_schema.webinars := [Sample.math] |} [Sample.physics]
           {| netology_schema.webinars := [Sample.math] |}
           [Sample.physics; Sample.chemistry] [Byte.x01] [Byte.x02]);
    vm_compute; reflexivity.
Defined.

Lemma get_calendar_all_or_nothing_witness :
  fst (Sample.get_calendar Sample.netology_down Sample.modeus_up
         Sample.empty_world) =
    Err (ExceptionGroup "unhandled errors in a TaskGroup"
           ["netology: 502 Bad Gateway"]).
Proof.
  destruct (get_calendar_all_or_nothing string string Sample.netology_down
              Sample.modeus_up "body" "jwt" 45526 "cookies"
              Sample.empty_world) as (_ & _ & H).
  - left. discriminate.
  - apply H. discriminate.
Defined.

Lemma refresh_change_detection_witness :
  exists cached w1,
    Sample.get_cached_calendar Sample.modeus_changing Sample.no_fault
      Sample.empty_world = (Ok cached, w1) /\
    fst (Sample.get_calendar Sample.netology_up Sample.modeus_changing w1) =
      Ok Sample.scenario_later /\
    true = negb (String.eqb (Sample.get_hash cached)
                   (Sample.get_hash Sample.scenario_later)) /\
    (Sample.get_hash cached = Sample.get_hash Sample.scenario_later ->
     true = false) /\
    (Sample.get_hash cached <> Sample.get_hash Sample.scenario_later ->
     true = true).
Proof.
  apply (refresh_change_detection string string Sample.settings
           Sample.cache_config Sample.md5_hexdigest Sample.str_args
           Sample.get_hash Sample.netology_up Sample.modeus_changing
           Sample.no_fault "body" "jwt" 45526 "cookies" Sample.empty_world
           {| schema.snapshot := Sample.scenario_later;
              schema.changed := true |}).
  vm_compute. reflexivity.
Defined.

Lemma refresh_cache_write_failure_witness :
  fst (Sample.refresh_events Sample.modeus_up (Sample.fault_at 4)
         Sample.empty_world) =
    Err (HTTPException 500 "Can't refresh redis") /\
  (forall r,
     fst (Sample.refresh_events Sample.modeus_up (Sample.fault_at 4)
            Sample.empty_world) <> Ok r) /\
  exists message,
    last (log (snd (Sample.refresh_events Sample.modeus_up (Sample.fault_at 4)
                      Sample.empty_world))) =
      Some ("Got redis " +:+ message).
Proof.
  apply (refresh_cache_write_failure string string Sample.settings
           Sample.cache_config Sample.md5_hexdigest Sample.str_args
           Sample.get_hash Sample.netology_up Sample.modeus_up
           (Sample.fault_at 4) "body" "jwt" 45526 "cookies"
           Sample.empty_world Sample.scenario Sample.scenario).
  - vm_compute. reflexivity.
  - vm_compute. reflexivity.
  - right. exists "Connection refused". vm_compute. reflexivity.
Defined.




(** * The further properties on the sample collaborators *)

Lemma export_times_in_target_timezone_witness :
  exists doc,
    Sample.export_document Sample.mixed "Europe/Moscow" = Ok doc /\
    map (fun entry => (get "dtstart" entry, get "dtend" entry))
      (subcomponents doc) =
      [(Some (VDatetime {| instant := 1704103200;
                           tz := Some {| zone := "Europe/Moscow" |} |}),
        Some (VDatetime {| instant := 1704106800;
                           tz := Some {| zone := "Europe/Moscow" |} |}));
       (Some (VDatetime {| instant := 1704110400;
                           tz := Some {| zone := "Europe/Moscow" |} |}),
        Some (VDatetime {| instant := 1704114000;
                           tz := Some {| zone := "Europe/Moscow" |} |}));
       (Some (VDatetime {| instant := 1704200400;
                           tz := Some {| zone := "Europe/Moscow" |} |}),
        Some (VDatetime {| instant := 1704204000;
                           tz := Some {| zone := "Europe/Moscow" |} |}))] /\
    map (get "dtstamp") (subcomponents doc) =
      [Some (VDatetime {| instant := 1704153600; tz := Some utc |});
       Some (VDatetime {| instant := 1704153601; tz := Some utc |});
       Some (VDatetime {| instant := 1704153602; tz := Some utc |})].
Proof.
  eexists. split; [reflexivity|].
  split; [|reflexivity].
  exact (proj1 (export_times_in_target_timezone Sample.pytz_timezone
                  Sample.now Sample.mixed "Europe/Moscow"
                  {| zone := "Europe/Moscow" |} _ eq_refl eq_refl)).
Defined.

Lemma export_uids_and_summaries_witness :
  exists doc,
    Sample.export_document Sample.mixed "UTC" = Ok doc /\
    map (fun entry => (get "uid" entry, get "summary" entry))
      (subcomponents doc) =
      [(Some (VInt 1), Some (VStr "Netology: Math"));
       (Some (VInt 2), Some (VStr "Modeus: Physics"));
       (Some (VInt 4), Some (VStr "Modeus: Chemistry"))].
Proof.
  eexists. split; [reflexivity|].
  exact (export_uids_and_summaries Sample.pytz_timezone Sample.now
           Sample.mixed "UTC" Sample.utc _ eq_refl eq_refl).
Defined.

Lemma export_descriptions_witness :
  exists doc,
    Sample.export_document Sample.described "UTC" = Ok doc /\
    map (get "description") (subcomponents doc) =
      [None; None; Some (VStr "Lab 2"); None].
Proof.
  eexists. split; [reflexivity|].
  exact (export_descriptions Sample.pytz_timezone Sample.now
           Sample.described "UTC" Sample.utc _ eq_refl eq_refl).
Defined.

Lemma export_location_of_webinar_witness :
  exists doc,
    Sample.export_document Sample.described "UTC" = Ok doc /\
    exists entry,
      In entry (subcomponents doc) /\
      IcsExport.from_netology Sample.now Sample.utc Sample.lecture entry /\
      get "location" entry = Some (VStr "https://netology.example/5").
Proof.
  eexists. split; [reflexivity|].
  apply (export_location_of_webinar Sample.pytz_timezone Sample.now
           Sample.described "UTC" Sample.utc _ Sample.lecture
           "https://netology.example/5").
  - reflexivity.
  - reflexivity.
  - left. reflexivity.
  - reflexivity.
  - reflexivity.
Defined.

Lemma export_document_metadata_witness :
  exists doc,
    Sample.export_document Sample.scenario "Asia/Yekaterinburg" = Ok doc /\
    cal_properties doc =
      [("version", VStr "2.0"); ("prodid", VStr "yet_another_calendar")].
Proof.
  eexists. split; [reflexivity|].
  apply (export_document_metadata Sample.pytz_timezone Sample.now
           Sample.scenario "Asia/Yekaterinburg").
  reflexivity.
Defined.

Lemma cached_read_serves_entry_witness :
  fst (Bulk.get_cached_calendar string string Sample.settings
         Sample.cache_config Sample.md5_hexdigest Sample.str_args
         Sample.netology_down Sample.modeus_up Sample.no_fault
         "body" "jwt" 45526 "cookies" Sample.warm_world) =
    Ok Sample.scenario.
Proof.
  apply (cached_read_serves_entry string string Sample.settings
           Sample.cache_config Sample.md5_hexdigest Sample.str_args
           Sample.netology_down Sample.modeus_up Sample.no_fault
           "body" "jwt" 45526 "cookies" Sample.warm_world
           [Byte.x01] (Some 3600) Sample.scenario).
  - reflexivity.
  - vm_compute. reflexivity.
  - reflexivity.
Defined.

Lemma cached_read_populates_cache_witness :
  fst (Sample.get_cached_calendar Sample.modeus_up Sample.no_fault
         Sample.empty_world) = Ok Sample.scenario /\
  store (snd (Sample.get_cached_calendar Sample.modeus_up Sample.no_fault
                Sample.empty_world)) !! Sample.cached_key =
    Some ([Byte.x01], Some 3600).
Proof.
  destruct (cached_read_populates_cache string string Sample.settings
              Sample.cache_config Sample.md5_hexdigest Sample.str_args
              Sample.netology_up Sample.modeus_up Sample.no_fault
              "body" "jwt" 45526 "cookies" Sample.empty_world
              Sample.scenario [Byte.x01]) as (H1 & H2 & _).
  - vm_compute. reflexivity.
  - vm_compute. reflexivity.
  - reflexivity.
  - reflexivity.
  - split; [exact H1 | exact H2].
Defined.

Lemma cached_read_survives_backend_failure_witness :
  fst (Sample.get_cached_calendar Sample.modeus_changing (Sample.fault_at 3)
         Sample.warm_world) = Ok Sample.scenario_later.
Proof.
  apply (cached_read_survives_backend_failure string string Sample.settings
           Sample.cache_config Sample.md5_hexdigest Sample.str_args
           Sample.netology_up Sample.modeus_changing (Sample.fault_at 3)
           "body" "jwt" 45526 "cookies" Sample.warm_world
           "Connection refused" Sample.scenario_later [Byte.x02]).
  - reflexivity.
  - vm_compute. reflexivity.
  - reflexivity.
Defined.

Lemma cached_read_swallows_write_failure_witness :
  fst (Sample.get_cached_calendar Sample.modeus_up (Sample.fault_at 2)
         Sample.empty_world) = Ok Sample.scenario /\
  store (snd (Sample.get_cached_calendar Sample.modeus_up (Sample.fault_at 2)
                Sample.empty_world)) = store Sample.empty_world /\
  log (snd (Sample.get_cached_calendar Sample.modeus_up (Sample.fault_at 2)
              Sample.empty_world)) = log Sample.empty_world.
Proof.
  apply (cached_read_swallows_write_failure string string Sample.settings
           Sample.cache_config Sample.md5_hexdigest Sample.str_args
           Sample.netology_up Sample.modeus_up (Sample.fault_at 2)
           "body" "jwt" 45526 "cookies" Sample.empty_world
           "Connection refused" Sample.scenario [Byte.x01]).
  - vm_compute. reflexivity.
  - vm_compute. reflexivity.
  - reflexivity.
  - reflexivity.
Defined.

Lemma refresh_upstream_failure_witness :
  fst (Sample.refresh_events (Sample.modeus_down_from 4) Sample.no_fault
         Sample.warm_world) =
    Err (ExceptionGroup "unhandled errors in a TaskGroup"
           ["modeus: 401 Unauthorized"]) /\
  store (snd (Sample.refresh_events (Sample.modeus_down_from 4)
                Sample.no_fault Sample.warm_world)) =
    store (snd (Sample.get_cached_calendar (Sample.modeus_down_from 4)
                  Sample.no_fault Sample.warm_world)) /\
  log (snd (Sample.refresh_events (Sample.modeus_down_from 4)
              Sample.no_fault Sample.warm_world)) =
    log (snd (Sample.get_cached_calendar (Sample.modeus_down_from 4)
                Sample.no_fault Sample.warm_world)).
Proof.
  apply (refresh_upstream_failure string string Sample.settings
           Sample.cache_config Sample.md5_hexdigest Sample.str_args
           Sample.get_hash Sample.netology_up (Sample.modeus_down_from 4)
           Sample.no_fault "body" "jwt" 45526 "cookies" Sample.warm_world
           Sample.scenario).
  - vm_compute. reflexivity.
  - vm_compute. reflexivity.
Defined.

Lemma refresh_failed_write_keeps_cache_witness :
  store (snd (Sample.refresh_events Sample.modeus_changing (Sample.fault_at 5)
                Sample.warm_world)) =
  store (snd (Sample.get_cached_calendar Sample.modeus_changing
                (Sample.fault_at 5) Sample.warm_world)).
Proof.
  apply (refresh_failed_write_keeps_cache string string Sample.settings
           Sample.cache_config Sample.md5_hexdigest Sample.str_args
           Sample.get_hash Sample.netology_up Sample.modeus_changing
           (Sample.fault_at 5) "body" "jwt" 45526 "cookies" Sample.warm_world
           Sample.scenario Sample.scenario_later).
  - vm_compute. reflexivity.
  - vm_compute. reflexivity.
  - right. exists "Connection refused". vm_compute. reflexivity.
Defined.


Lemma refresh_misses_entry_on_other_namespace_witness :
  store (snd (Bulk.refresh_events string string Sample.settings
                Sample.cache_config_other Sample.md5_hexdigest
                Sample.str_args Sample.get_hash Sample.netology_up
                Sample.modeus_changing Sample.no_fault
                "body" "jwt" 45526 "cookies" Sample.warm_world_other))
    !! Bulk.cached_key string string Sample.cache_config_other
         Sample.md5_hexdigest Sample.str_args "body" "jwt" 45526 "cookies" =
    Some ([Byte.x01], Some 3600).
Proof.
  apply (refresh_misses_entry_on_other_namespace string string
           Sample.settings Sample.cache_config_other Sample.md5_hexdigest
           Sample.str_args Sample.get_hash Sample.netology_up
           Sample.modeus_changing Sample.no_fault
           "body" "jwt" 45526 "cookies" Sample.warm_world_other
           [Byte.x01] (Some 3600) Sample.scenario
           {| schema.snapshot := Sample.scenario_later;
              schema.changed := true |}).
  - discriminate.
  - reflexivity.
  - vm_compute. reflexivity.
  - reflexivity.
  - vm_compute. reflexivity.
Defined.

Lemma refresh_with_cached_snapshot_witness :
  fst (Sample.refresh_events Sample.modeus_changing Sample.no_fault
         Sample.warm_world) =
    Ok {| schema.snapshot := Sample.scenario_later;
          schema.changed := true |} /\
  ticks (snd (Sample.refresh_events Sample.modeus_changing Sample.no_fault
                Sample.warm_world)) = 6%nat.
Proof.
  apply (refresh_with_cached_snapshot string string Sample.settings
           Sample.cache_config Sample.md5_hexdigest Sample.str_args
           Sample.get_hash Sample.netology_up Sample.modeus_changing
           Sample.no_fault "body" "jwt" 45526 "cookies" Sample.warm_world
           [Byte.x01] (Some 3600) Sample.scenario
           {| netology_schema.webinars := [Sample.math] |}
           [Sample.physics; Sample.chemistry] [Byte.x02]).
  - reflexivity.
  - vm_compute. reflexivity.
  - reflexivity.
  - reflexivity.
  - reflexivity.
  - reflexivity.
  - reflexivity.
Defined.
